(** * Scoring analysis engine of TGAScoringAudit

    A shallow embedding of [tga_scoring_audit/analysis/scoring.py]
    (class [ScoringAnalyzer]) and the properties of its two public entry
    points, [analyze_round_scoring] and [get_detailed_analysis]; then of the
    code around it: the shaping of the tee sheet in
    [GolfGeniusAPI.get_tee_sheet], the scoring step of the application
    ([TGAScoringAudit._analyze_scoring]), [utils/validators.py] and the API
    key of [Config].

    The payload is whatever the JSON decoder hands over, so the functions are
    modelled over a type of dynamically typed values.  Operations that can
    raise in Python return in an error monad, and a [try]/[except] block of
    the source is a [match] on the outcome of its body. *)

From Stdlib Require Import ZArith List String Ascii Bool Lia.
From Stdlib Require Import DecimalString SpecFloat Permutation.
Import ListNotations.

Local Open Scope string_scope.
Local Open Scope Z_scope.
Set Warnings "-register-all".

(** ** Values *)

Module Py.

(** A Python [float] is an IEEE double; [fl_val] is its exact value and
    [fl_digits] the shortest round-trip decimal text that [repr] prints for
    a finite non-zero one (taken as data, it is never computed with). *)
Record pyfloat := MkFloat { fl_val : spec_float; fl_digits : string }.

(** What [json] decoding produces.  A string is a sequence of code points
    below 256, one per character.  A [dict] keeps insertion order, which
    [str] shows, so it is an association list; lookup takes the first
    binding of a key. *)
Inductive value :=
| VNone
| VBool (b : bool)
| VInt (n : Z)
| VFloat (f : pyfloat)
| VStr (s : string)
| VList (l : list value)
| VDict (d : list (string * value)).

(** Built-in exceptions met in this module; [str(e)] is the message. *)
Inductive exn :=
| TypeError (msg : string)
| ValueError (msg : string)
| OverflowError (msg : string)
| KeyError (msg : string).

Definition exn_str (e : exn) : string :=
  match e with
  | TypeError m | ValueError m | OverflowError m | KeyError m => m
  end.

(** ** The error monad *)

Inductive result (A : Type) :=
| Ok (a : A)
| Raise (e : exn).
Arguments Ok {A} a.
Arguments Raise {A} e.

Definition bind {A B} (c : result A) (k : A -> result B) : result B :=
  match c with
  | Ok a => k a
  | Raise e => Raise e
  end.

(** A [for] loop whose body updates the local variables [s] and may raise. *)
Fixpoint for_each {A S} (body : A -> S -> result S) (xs : list A) (s : S)
  : result S :=
  match xs with
  | [] => Ok s
  | x :: xs' => bind (body x s) (for_each body xs')
  end.

End Py.
Export Py.

Declare Scope py_scope.
Delimit Scope py_scope with py.
Notation "x <- c ;; k" := (bind c (fun x => k))
  (at level 61, c at next level, right associativity) : py_scope.
Local Open Scope py_scope.

(** ** Characters and strings *)

Module Text.

Definition code (c : ascii) : Z := Z.of_nat (nat_of_ascii c).

(** [str.isspace] on one code point below 256. *)
Definition is_space (c : ascii) : bool :=
  let n := code c in
  ((9 <=? n) && (n <=? 13)) || ((28 <=? n) && (n <=? 32))
  || (n =? 133) || (n =? 160).

Definition is_digit (c : ascii) : bool :=
  let n := code c in (48 <=? n) && (n <=? 57).

Definition digit_value (c : ascii) : Z := code c - 48.

(** The white space that [int] allows around a number: as [is_space], but
    for the code points 28 to 31. *)
Definition is_int_space (c : ascii) : bool :=
  let n := code c in
  ((9 <=? n) && (n <=? 13)) || (n =? 32) || (n =? 133) || (n =? 160).

Fixpoint lstrip_with (space : ascii -> bool) (s : string) : string :=
  match s with
  | String c r => if space c then lstrip_with space r else s
  | EmptyString => EmptyString
  end.

Fixpoint rev_onto (s acc : string) : string :=
  match s with
  | String c r => rev_onto r (String c acc)
  | EmptyString => acc
  end.

Definition rev (s : string) : string := rev_onto s EmptyString.

Definition strip_with (space : ascii -> bool) (s : string) : string :=
  rev (lstrip_with space (rev (lstrip_with space s))).

(** [s.strip()] *)
Definition strip (s : string) : string := strip_with is_space s.

Definition is_empty (s : string) : bool :=
  match s with EmptyString => true | _ => false end.

(** [sub in s] for two strings. *)
Fixpoint contains (sub s : string) : bool :=
  prefix sub s
  || match s with
     | String _ r => contains sub r
     | EmptyString => false
     end.

Fixpoint chars (s : string) : list string :=
  match s with
  | String c r => String c EmptyString :: chars r
  | EmptyString => []
  end.

Fixpoint join (sep : string) (l : list string) : string :=
  match l with
  | [] => EmptyString
  | [x] => x
  | x :: r => x ++ sep ++ join sep r
  end.

(** Decimal text of an integer, as [str(n)] and an f-string print it. *)
Definition of_Z (n : Z) : string := NilZero.string_of_int (Z.to_int n).

Definition hex_digit (n : Z) : ascii :=
  ascii_of_nat (Z.to_nat (if n <? 10 then 48 + n else 87 + n)).

Definition quote1 : ascii := ascii_of_nat 39.
Definition quote2 : ascii := ascii_of_nat 34.
Definition backslash : ascii := ascii_of_nat 92.

Fixpoint has_char (c : ascii) (s : string) : bool :=
  match s with
  | String c' r => Ascii.eqb c c' || has_char c r
  | EmptyString => false
  end.

(** [repr] shows these code points as a [\xNN] escape. *)
Definition unprintable (c : ascii) : bool :=
  let n := code c in
  (n <? 32) || ((127 <=? n) && (n <=? 160)) || (n =? 173).

Definition escape_char (q c : ascii) : string :=
  let n := code c in
  if Ascii.eqb c q || Ascii.eqb c backslash then String backslash (String c EmptyString)
  else if n =? 9 then String backslash "t"
  else if n =? 10 then String backslash "n"
  else if n =? 13 then String backslash "r"
  else if unprintable c then
    String backslash (String "x" (String (hex_digit (n / 16))
                                    (String (hex_digit (n mod 16)) EmptyString)))
  else String c EmptyString.

Fixpoint escape (q : ascii) (s : string) : string :=
  match s with
  | String c r => escape_char q c ++ escape q r
  | EmptyString => EmptyString
  end.

(** [repr(s)] of a string: single quotes, unless the text has a single
    quote and no double quote. *)
Definition repr (s : string) : string :=
  let q := if has_char quote1 s && negb (has_char quote2 s) then quote2 else quote1 in
  String q (escape q s ++ String q EmptyString).

End Text.

(** ** Built-in operations on values *)

Module Builtin.

Definition type_name (v : value) : string :=
  match v with
  | VNone => "NoneType"
  | VBool _ => "bool"
  | VInt _ => "int"
  | VFloat _ => "float"
  | VStr _ => "str"
  | VList _ => "list"
  | VDict _ => "dict"
  end.

(** [isinstance(v, dict)] *)
Definition is_dict (v : value) : bool :=
  match v with VDict _ => true | _ => false end.

Definition float_is_zero (f : pyfloat) : bool :=
  match fl_val f with S754_zero _ => true | _ => false end.

(** [bool(v)], as [not v] and [if v] use it. *)
Definition truthy (v : value) : bool :=
  match v with
  | VNone => false
  | VBool b => b
  | VInt n => negb (n =? 0)
  | VFloat f => negb (float_is_zero f)
  | VStr s => negb (Text.is_empty s)
  | VList l => match l with [] => false | _ => true end
  | VDict d => match d with [] => false | _ => true end
  end.

(** [v is None] *)
Definition is_none (v : value) : bool :=
  match v with VNone => true | _ => false end.

(** [v == <the empty string>] *)
Definition eq_empty_str (v : value) : bool :=
  match v with VStr s => Text.is_empty s | _ => false end.

(** [v == 0]: numbers compare by value, and [False == 0]. *)
Definition eq_zero (v : value) : bool :=
  match v with
  | VInt n => n =? 0
  | VBool b => negb b
  | VFloat f => float_is_zero f
  | _ => false
  end.

(** [v == {}] *)
Definition eq_empty_dict (v : value) : bool :=
  match v with VDict [] => true | _ => false end.

(** [int(f)] of a finite float: rounding towards zero. *)
Definition float_trunc (neg : bool) (m : positive) (e : Z) : Z :=
  let a := if 0 <=? e then Z.shiftl (Z.pos m) e else Z.shiftr (Z.pos m) (- e) in
  if neg then - a else a.

(** The interpreter's default limit on the digits of a decimal literal
    handed to [int]. *)
Definition int_max_str_digits : Z := 4300.

(** What [int] makes of a text: a number, a run of more digits than the
    limit allows, or no number at all. *)
Inductive literal :=
| Number (n : Z)
| TooLong (digits : Z)
| NoNumber.

(** The scan over the leading run of digits, with single underscores
    between them; [seen] tells that the previous character was a digit,
    [count] how many digits were read.  A run that starts or ends with an
    underscore, or has two in a row, is no number.  The digits of a
    well-formed run are counted against the limit before the text after
    the run is looked at: text after a run within the limit is no number. *)
Fixpoint scan_digits (s : string) (acc : Z) (count : Z) (seen : bool) : literal :=
  match s with
  | EmptyString =>
      if seen then
        if int_max_str_digits <? count then TooLong count else Number acc
      else NoNumber
  | String c r =>
      if Text.is_digit c then
        scan_digits r (10 * acc + Text.digit_value c) (count + 1) true
      else if Ascii.eqb c "_" then
        if seen then scan_digits r acc count false else NoNumber
      else if seen && (int_max_str_digits <? count) then TooLong count
      else NoNumber
  end.

Definition parse_int (s : string) : literal :=
  match Text.strip_with Text.is_int_space s with
  | EmptyString => NoNumber
  | String c r =>
      if Ascii.eqb c "-" then
        match scan_digits r 0 0 false with
        | Number n => Number (- n)
        | other => other
        end
      else if Ascii.eqb c "+" then scan_digits r 0 0 false
      else scan_digits (String c r) 0 0 false
  end.

(** [int(v)] *)
Definition py_int (v : value) : result Z :=
  match v with
  | VBool b => Ok (if b then 1 else 0)
  | VInt n => Ok n
  | VFloat f =>
      match fl_val f with
      | S754_zero _ => Ok 0
      | S754_finite neg m e => Ok (float_trunc neg m e)
      | S754_infinity _ => Raise (OverflowError "cannot convert float infinity to integer")
      | S754_nan => Raise (ValueError "cannot convert float NaN to integer")
      end
  | VStr s =>
      match parse_int s with
      | Number n => Ok n
      | TooLong k =>
          Raise (ValueError ("Exceeds the limit (4300 digits) for integer string conversion: value has "
                             ++ Text.of_Z k ++ " digits; use sys.set_int_max_str_digits() to increase the limit"))
      | NoNumber => Raise (ValueError ("invalid literal for int() with base 10: " ++ Text.repr s))
      end
  | _ => Raise (TypeError ("int() argument must be a string, a bytes-like object or a real number, not '"
                           ++ type_name v ++ "'"))
  end.

Definition float_repr (f : pyfloat) : string :=
  match fl_val f with
  | S754_nan => "nan"
  | S754_infinity neg => if neg then "-inf" else "inf"
  | S754_zero neg => if neg then "-0.0" else "0.0"
  | S754_finite _ _ _ => fl_digits f
  end.

(** [repr(v)] *)
Fixpoint py_repr (v : value) : string :=
  match v with
  | VNone => "None"
  | VBool b => if b then "True" else "False"
  | VInt n => Text.of_Z n
  | VFloat f => float_repr f
  | VStr s => Text.repr s
  | VList l =>
      "[" ++ Text.join ", " ((fix items (l : list value) : list string :=
                                match l with
                                | [] => []
                                | x :: r => py_repr x :: items r
                                end) l) ++ "]"
  | VDict d =>
      "{" ++ Text.join ", " ((fix items (d : list (string * value)) : list string :=
                                match d with
                                | [] => []
                                | (k, x) :: r => (Text.repr k ++ ": " ++ py_repr x) :: items r
                                end) d) ++ "}"
  end.

(** [str(v)] *)
Definition py_str (v : value) : string :=
  match v with
  | VStr s => s
  | _ => py_repr v
  end.

Fixpoint dict_get (d : list (string * value)) (key : string) : option value :=
  match d with
  | [] => None
  | (k, x) :: r => if String.eqb k key then Some x else dict_get r key
  end.

Definition dict_has (d : list (string * value)) (key : string) : bool :=
  match dict_get d key with Some _ => true | None => false end.

Definition eq_str (key : string) (v : value) : bool :=
  match v with VStr s => String.eqb s key | _ => false end.

(** [key in v] for a string [key]: key membership in a dict, element
    membership in a list, substring test on a string. *)
Definition py_in (key : string) (v : value) : result bool :=
  match v with
  | VDict d => Ok (dict_has d key)
  | VList l => Ok (existsb (eq_str key) l)
  | VStr s => Ok (Text.contains key s)
  | _ => Raise (TypeError ("argument of type '" ++ type_name v ++ "' is not iterable"))
  end.

(** [v[key]] for a string [key], after [key in v] held. *)
Definition py_getitem (v : value) (key : string) : result value :=
  match v with
  | VDict d =>
      match dict_get d key with
      | Some x => Ok x
      | None => Raise (KeyError (Text.repr key))
      end
  | VList _ => Raise (TypeError "list indices must be integers or slices, not str")
  | VStr _ => Raise (TypeError "string indices must be integers, not 'str'")
  | _ => Raise (TypeError ("'" ++ type_name v ++ "' object is not subscriptable"))
  end.

(** The items a [for] loop over [v] visits. *)
Definition py_iter (v : value) : result (list value) :=
  match v with
  | VList l => Ok l
  | VDict d => Ok (map (fun kv => VStr (fst kv)) d)
  | VStr s => Ok (map VStr (Text.chars s))
  | _ => Raise (TypeError ("'" ++ type_name v ++ "' object is not iterable"))
  end.

(** [l[a:b]] for [0 <= a <= b]. *)
Definition slice {A} (l : list A) (a b : nat) : list A :=
  firstn (b - a) (skipn a l).

(** [len(l)] *)
Definition len {A} (l : list A) : Z := Z.of_nat (List.length l).

End Builtin.
Import Builtin.

(** ** ScoringAnalyzer *)

(** *** [_extract_players] *)

(** The [for key in [...]] loop; [Some players] is an early [return]. *)
Fixpoint extract_players_loop (keys : list string) (pairing_group : value)
  : result (option (list value)) :=
  match keys with
  | [] => Ok None
  | key :: keys' =>
      present <- py_in key pairing_group ;;
      if present then
        players_data <- py_getitem pairing_group key ;;
        match players_data with
        | VList l => Ok (Some l)
        | VDict _ => Ok (Some [players_data])
        | _ => extract_players_loop keys' pairing_group
        end
      else extract_players_loop keys' pairing_group
  end.

Definition player_keys : list string := ["players"; "player"; "pairing"; "members"].

(** The code after the loop: [pairing_group] itself is the player when it
    has a [name] or a [scores] key. *)
Definition players_fallback (pairing_group : value) : result (list value) :=
  has_name <- py_in "name" pairing_group ;;
  if has_name then Ok [pairing_group]
  else
    has_scores <- py_in "scores" pairing_group ;;
    if has_scores then Ok [pairing_group] else Ok [].

(** The loop over the alias keys [keys], then the code after the loop. *)
Definition players_from (keys : list string) (pairing_group : value)
  : result (list value) :=
  found <- extract_players_loop keys pairing_group ;;
  match found with
  | Some players => Ok players
  | None => players_fallback pairing_group
  end.

Definition _extract_players (pairing_group : value) : result (list value) :=
  players_from player_keys pairing_group.

(** *** [_extract_scores] *)

Fixpoint extract_scores_loop (keys : list string) (player : value)
  : result (option (list value)) :=
  match keys with
  | [] => Ok None
  | key :: keys' =>
      present <- py_in key player ;;
      if present then
        scores_data <- py_getitem player key ;;
        match scores_data with
        | VList l => Ok (Some l)
        | _ => extract_scores_loop keys' player
        end
      else extract_scores_loop keys' player
  end.

Definition score_keys : list string :=
  ["score_array"; "scores"; "score"; "holes"; "hole_scores"].

Definition _extract_scores (player : value) : result (list value) :=
  found <- extract_scores_loop score_keys player ;;
  match found with
  | Some scores => Ok scores
  | None => Ok []
  end.

(** *** [_has_valid_scores] *)

(** The first [if] of the loop body: [score is None or score == <empty
    string> or score == 0 or score == {}]. *)
Definition skipped (score : value) : bool :=
  is_none score || eq_empty_str score || eq_zero score || eq_empty_dict score.

(** The test of the [except (ValueError, TypeError)] branch:
    [str(score).strip() and str(score) != "{}"]. *)
Definition text_counts (score : value) : bool :=
  negb (Text.is_empty (Text.strip (py_str score)))
  && negb (String.eqb (py_str score) "{}").

Fixpoint _has_valid_scores (scores : list value) : result bool :=
  match scores with
  | [] => Ok false
  | score :: rest =>
      if skipped score then _has_valid_scores rest
      else if is_dict score && negb (truthy score) then _has_valid_scores rest
      else
        match py_int score with
        | Ok score_int =>
            if (1 <=? score_int) && (score_int <=? 15) then Ok true
            else _has_valid_scores rest
        | Raise (ValueError _) | Raise (TypeError _) =>
            if text_counts score then Ok true else _has_valid_scores rest
        | Raise e => Raise e
        end
  end.

(** *** [analyze_round_scoring] *)

Module A.
(** The counters of [analyze_round_scoring]. *)
Record locals := Locals {
  total_front_9_scores : Z;
  total_back_9_scores : Z;
  total_players : Z
}.
End A.

Definition analyze_init : A.locals := A.Locals 0 0 0.

(** Body of [for player in players]. *)
Definition analyze_player (player : value) (c : A.locals) : result A.locals :=
  if negb (is_dict player) then Ok c
  else
    let c := A.Locals (A.total_front_9_scores c) (A.total_back_9_scores c)
                      (A.total_players c + 1) in
    scores <- _extract_scores player ;;
    if 18 <=? len scores then
      let front_9_scores := slice scores 0 9 in
      let back_9_scores := slice scores 9 18 in
      has_front <- _has_valid_scores front_9_scores ;;
      let c := if has_front
               then A.Locals (A.total_front_9_scores c + 1) (A.total_back_9_scores c)
                             (A.total_players c)
               else c in
      has_back <- _has_valid_scores back_9_scores ;;
      let c := if has_back
               then A.Locals (A.total_front_9_scores c) (A.total_back_9_scores c + 1)
                             (A.total_players c)
               else c in
      Ok c
    else Ok c.

(** Body of [for item in tee_sheet_data]. *)
Definition analyze_item (item : value) (c : A.locals) : result A.locals :=
  if negb (is_dict item) then Ok c
  else
    wrapped <- py_in "pairing_group" item ;;
    pairing_group <- (if wrapped then py_getitem item "pairing_group" else Ok item) ;;
    players <- _extract_players pairing_group ;;
    for_each analyze_player players c.

(** The body of the [try] block. *)
Definition analyze_pass (tee_sheet_data : value) : result A.locals :=
  items <- py_iter tee_sheet_data ;;
  for_each analyze_item items analyze_init.

(** The code after the [try] block. *)
Definition analyze_decision (c : A.locals) : bool * string :=
  let total_front_9_scores := A.total_front_9_scores c in
  let total_back_9_scores := A.total_back_9_scores c in
  let total_players := A.total_players c in
  if total_players =? 0 then (false, "No players found in tee sheet")
  else
    let has_front_9_scores := 0 <? total_front_9_scores in
    let has_back_9_scores := 0 <? total_back_9_scores in
    if has_front_9_scores && has_back_9_scores then
      (true, "Complete scoring detected: F9=" ++ Text.of_Z total_front_9_scores
             ++ ", B9=" ++ Text.of_Z total_back_9_scores ++ " players")
    else if has_front_9_scores && negb has_back_9_scores then
      (false, "Only front 9 scores found (" ++ Text.of_Z total_front_9_scores
              ++ "/" ++ Text.of_Z total_players ++ " players)")
    else if has_back_9_scores && negb has_front_9_scores then
      (false, "Only back 9 scores found (" ++ Text.of_Z total_back_9_scores
              ++ "/" ++ Text.of_Z total_players ++ " players)")
    else if negb has_front_9_scores && negb has_back_9_scores then
      (false, "No scores found on either front or back 9")
    else (false, "Unexpected scoring state").

Definition analyze_round_scoring (tee_sheet_data : value) : result (bool * string) :=
  if negb (truthy tee_sheet_data) then Ok (true, "No tee sheet data available")
  else
    match analyze_pass tee_sheet_data with
    | Raise e => Ok (true, "Error analyzing scores: " ++ exn_str e)
    | Ok c => Ok (analyze_decision c)
    end.

(** *** [get_detailed_analysis] *)

Module D.
(** The counters of [get_detailed_analysis]. *)
Record locals := Locals {
  total_players : Z;
  front_9_players : Z;
  back_9_players : Z;
  complete_players : Z
}.
End D.

(** The dictionary [get_detailed_analysis] returns, one field per key. *)
Record analysis := Analysis {
  total_players : Z;
  front_9_players : Z;
  back_9_players : Z;
  complete_players : Z;
  incomplete_players : Z;
  is_flagged : bool;
  flag_reason : string
}.

Definition detail_init : D.locals := D.Locals 0 0 0 0.

Definition detail_player (player : value) (c : D.locals) : result D.locals :=
  if negb (is_dict player) then Ok c
  else
    let c := D.Locals (D.total_players c + 1) (D.front_9_players c)
                      (D.back_9_players c) (D.complete_players c) in
    scores <- _extract_scores player ;;
    if 18 <=? len scores then
      let front_9_scores := slice scores 0 9 in
      let back_9_scores := slice scores 9 18 in
      has_front_9 <- _has_valid_scores front_9_scores ;;
      has_back_9 <- _has_valid_scores back_9_scores ;;
      let c := if has_front_9
               then D.Locals (D.total_players c) (D.front_9_players c + 1)
                             (D.back_9_players c) (D.complete_players c)
               else c in
      let c := if has_back_9
               then D.Locals (D.total_players c) (D.front_9_players c)
                             (D.back_9_players c + 1) (D.complete_players c)
               else c in
      let c := if has_front_9 && has_back_9
               then D.Locals (D.total_players c) (D.front_9_players c)
                             (D.back_9_players c) (D.complete_players c + 1)
               else c in
      Ok c
    else Ok c.

Definition detail_item (item : value) (c : D.locals) : result D.locals :=
  if negb (is_dict item) then Ok c
  else
    wrapped <- py_in "pairing_group" item ;;
    pairing_group <- (if wrapped then py_getitem item "pairing_group" else Ok item) ;;
    players <- _extract_players pairing_group ;;
    for_each detail_player players c.

Definition detail_pass (tee_sheet_data : value) : result D.locals :=
  items <- py_iter tee_sheet_data ;;
  for_each detail_item items detail_init.

Definition get_detailed_analysis (tee_sheet_data : value) : result analysis :=
  if negb (truthy tee_sheet_data) then
    Ok (Analysis 0 0 0 0 0 true "No tee sheet data available")
  else
    match detail_pass tee_sheet_data with
    | Raise e => Ok (Analysis 0 0 0 0 0 true ("Error analyzing scores: " ++ exn_str e))
    | Ok c =>
        let incomplete_players := D.total_players c - D.complete_players c in
        verdict <- analyze_round_scoring tee_sheet_data ;;
        let '(is_flagged, flag_reason) := verdict in
        Ok (Analysis (D.total_players c) (D.front_9_players c) (D.back_9_players c)
                     (D.complete_players c) incomplete_players is_flagged flag_reason)
    end.

(** ** Sample payloads, from the unit tests *)

Definition ints (l : list Z) : list value := map VInt l.

Definition sheet_of (players : list value) : value :=
  VList [VDict [("players", VList players)]].

Definition player_of (name : string) (scores : list value) : value :=
  VDict [("name", VStr name); ("scores", VList scores)].

Definition front_scores : list value := ints [4; 5; 3; 4; 5; 4; 4; 3; 5].
Definition back_scores : list value := ints [4; 4; 5; 3; 4; 4; 5; 4; 3].
Definition nine_none : list value := repeat VNone 9.

Definition complete_sheet : value :=
  sheet_of [player_of "Test Player" (front_scores ++ back_scores)].
Definition front_only_sheet : value :=
  sheet_of [player_of "Test Player" (front_scores ++ nine_none)].
Definition back_only_sheet : value :=
  sheet_of [player_of "Test Player" (nine_none ++ back_scores)].
Definition no_scores_sheet : value :=
  sheet_of [player_of "Test Player" (repeat VNone 18)].
Definition two_player_sheet : value :=
  sheet_of [player_of "Complete Player" (front_scores ++ back_scores);
            player_of "Front 9 Only" (front_scores ++ nine_none)].

(** ** Notions used in the statements *)

(** Two computations end the same way: both return, or both raise the same
    exception. *)
Definition same_outcome {A B} (r1 : result A) (r2 : result B) : Prop :=
  match r1, r2 with
  | Ok _, Ok _ => True
  | Raise e1, Raise e2 => e1 = e2
  | _, _ => False
  end.

(** No half is counted more often than players are. *)
Definition counters_ok (c : A.locals) : Prop :=
  0 <= A.total_front_9_scores c <= A.total_players c
  /\ 0 <= A.total_back_9_scores c <= A.total_players c.

(** A pairing group that is [None]: the membership test raises. *)
Definition null_group_sheet : value := VList [VDict [("pairing_group", VNone)]].

(** An infinite float, as [json] decodes [Infinity] or [1e999]. *)
Definition infinity : value := VFloat (MkFloat (S754_infinity false) "inf").

(** [int] raises [OverflowError] on these only. *)
Definition is_infinite (v : value) : bool :=
  match v with
  | VFloat f => match fl_val f with S754_infinity _ => true | _ => false end
  | _ => false
  end.

(** [int(score)] ends in the [except (ValueError, TypeError)] branch. *)
Definition int_fails (score : value) : Prop :=
  exists m, py_int score = Raise (ValueError m) \/ py_int score = Raise (TypeError m).

(** C5 as written: the text form is tested as it is, not stripped. *)
Definition unstripped_text_counts (scores : list value) (score : value) : Prop :=
  List.length scores = 9%nat ->
  In score scores ->
  skipped score = false ->
  int_fails score ->
  py_str score <> EmptyString ->
  py_str score <> "{}" ->
  _has_valid_scores scores = Ok true.

(** The first of [keys] that the mapping has, its value, and the keys after
    it. *)
Fixpoint first_alias (keys : list string) (d : list (string * value))
  : option (string * value * list string) :=
  match keys with
  | [] => None
  | key :: keys' =>
      match dict_get d key with
      | Some v => Some (key, v, keys')
      | None => first_alias keys' d
      end
  end.

(** C6 as written: the result is a function [F] of the first alias key
    present and its value alone. *)
Definition first_key_decides (F : string -> value -> result (list value)) : Prop :=
  forall d key v keys',
    first_alias player_keys d = Some (key, v, keys') ->
    _extract_players (VDict d) = F key v.

(** ** Further notions: counters, wrappers, plausible scores *)

(** Counters added field by field. *)
Definition counts_add (a b : A.locals) : A.locals :=
  A.Locals (A.total_front_9_scores a + A.total_front_9_scores b)
           (A.total_back_9_scores a + A.total_back_9_scores b)
           (A.total_players a + A.total_players b).

(** The two traversals hold the same three counts. *)
Definition same_counts (a : A.locals) (d : D.locals) : Prop :=
  A.total_players a = D.total_players d
  /\ A.total_front_9_scores a = D.front_9_players d
  /\ A.total_back_9_scores a = D.back_9_players d.

(** What the counters of [get_detailed_analysis] satisfy at every point of
    the traversal. *)
Definition detail_ok (c : D.locals) : Prop :=
  0 <= D.complete_players c
  /\ D.complete_players c <= D.front_9_players c
  /\ D.complete_players c <= D.back_9_players c
  /\ D.front_9_players c + D.back_9_players c - D.complete_players c
     <= D.total_players c.

(** The test [1 <= score_int <= 15]. *)
Definition plausible (n : Z) : bool := (1 <=? n) && (n <=? 15).

(** A pairing group in the wrapper the API puts around it. *)
Definition wrap_group (pairing_group : value) : value :=
  VDict [("pairing_group", pairing_group)].

(** A mapping that is not itself such a wrapper. *)
Definition plain_group (g : value) : Prop :=
  exists d, g = VDict d /\ dict_has d "pairing_group" = false.

(** The mapping has a list under [key]. *)
Definition holds_list (d : list (string * value)) (key : string) : bool :=
  match dict_get d key with Some (VList _) => true | _ => false end.

(** The mapping has a list or a mapping under [key]. *)
Definition holds_players (d : list (string * value)) (key : string) : bool :=
  match dict_get d key with
  | Some (VList _) | Some (VDict _) => true
  | _ => false
  end.

(** Two loops over the same items, with bodies that keep a relation between
    their local variables and raise alike. *)
Definition related_outcome {A B} (R : A -> B -> Prop)
           (r1 : result A) (r2 : result B) : Prop :=
  match r1, r2 with
  | Ok a, Ok b => R a b
  | Raise e1, Raise e2 => e1 = e2
  | _, _ => False
  end.

(** [None], a truth value or a number: no container. *)
Definition is_scalar (v : value) : bool :=
  match v with
  | VNone | VBool _ | VInt _ | VFloat _ => true
  | _ => false
  end.

(** ** GolfGeniusAPI.get_tee_sheet *)

(** The exceptions of [api/client.py], as far as [get_tee_sheet] tells them
    apart: the two it lets through and any other one. *)
Inductive api_exn :=
| AuthenticationError (msg : string)
| ValidationError (msg : string)
| OtherError (msg : string).

Definition api_exn_str (e : api_exn) : string :=
  match e with
  | AuthenticationError m | ValidationError m | OtherError m => m
  end.

(** [isinstance(v, list)] *)
Definition is_list (v : value) : bool :=
  match v with VList _ => true | _ => false end.

Definition tee_sheet_keys : list string :=
  ["tee_sheet"; "pairing_groups"; "data"; "groups"].

(** The [for key in [...]] loop over a mapping response; [Some l] is the
    [break], [None] the [else] branch of the loop. *)
Fixpoint tee_sheet_loop (keys : list string) (response : list (string * value))
  : option (list value) :=
  match keys with
  | [] => None
  | key :: keys' =>
      if dict_has response key then
        match dict_get response key with
        | Some (VList l) => Some l
        | _ => tee_sheet_loop keys' response
        end
      else tee_sheet_loop keys' response
  end.

(** The tee sheet made of a decoded response. *)
Definition shape_tee_sheet (response : value) : value :=
  match response with
  | VList _ => response
  | VDict d =>
      match tee_sheet_loop tee_sheet_keys d with
      | Some l => VList l
      | None => if truthy response then VList [response] else VList []
      end
  | _ => VList []
  end.

(** [get_tee_sheet]; the HTTP request is not modelled, [reply] is what
    [self.client.get] returned or raised.  An exception other than the two
    of the API layer is wrapped in a [ValidationError] naming the round. *)
Definition get_tee_sheet (round_id : string) (reply : api_exn + value)
  : api_exn + value :=
  match reply with
  | inr response => inr (shape_tee_sheet response)
  | inl (OtherError msg) =>
      inl (ValidationError ("Failed to fetch tee sheet for round " ++ round_id
                            ++ ": " ++ msg))
  | inl e => inl e
  end.

(** ** Round and the scoring step of the application *)

Module Round.
(** The dataclass [Round]; the type of [date] is left open. *)
Record t (datetime : Type) := Make {
  id : string;
  event_id : string;
  name : string;
  date : option datetime;
  is_flagged : bool;
  flag_reason : string
}.
Arguments Make {datetime}.
Arguments id {datetime}.
Arguments event_id {datetime}.
Arguments name {datetime}.
Arguments date {datetime}.
Arguments is_flagged {datetime}.
Arguments flag_reason {datetime}.

(** [flag] and [unflag] assign the two fields; the updated object is
    returned. *)
Definition flag {datetime} (self : t datetime) (reason : string) : t datetime :=
  Make (id self) (event_id self) (name self) (date self) true reason.

Definition unflag {datetime} (self : t datetime) : t datetime :=
  Make (id self) (event_id self) (name self) (date self) false EmptyString.

(** Same round, flag fields apart. *)
Definition same_round {datetime} (a b : t datetime) : Prop :=
  id a = id b /\ event_id a = event_id b /\ name a = name b /\ date a = date b.
End Round.

(** Body of the loop of [TGAScoringAudit._analyze_scoring] for one round
    and the reply to its tee sheet request: the round as the body leaves it,
    and whether it was appended to [flagged_rounds].  The [print] calls are
    left out. *)
Definition analyze_scoring_step {datetime}
           (round_obj : Round.t datetime) (reply : api_exn + value)
  : Round.t datetime * bool :=
  match get_tee_sheet (Round.id round_obj) reply with
  | inr tee_sheet_data =>
      match analyze_round_scoring tee_sheet_data with
      | Ok (true, reason) => (Round.flag round_obj reason, true)
      | Ok (false, _) => (round_obj, false)
      | Raise e =>
          (Round.flag round_obj ("Unable to retrieve scoring data: " ++ exn_str e),
           true)
      end
  | inl e =>
      (Round.flag round_obj ("Unable to retrieve scoring data: " ++ api_exn_str e),
       true)
  end.

(** The loop: the rounds as the loop leaves them, each its own object, and
    [flagged_rounds]. *)
Fixpoint analyze_scoring_loop {datetime}
         (work : list (Round.t datetime * (api_exn + value)))
  : list (Round.t datetime) * list (Round.t datetime) :=
  match work with
  | [] => ([], [])
  | (round_obj, reply) :: work' =>
      let '(round_obj', appended) := analyze_scoring_step round_obj reply in
      let '(rounds', flagged_rounds) := analyze_scoring_loop work' in
      (round_obj' :: rounds',
       if appended then round_obj' :: flagged_rounds else flagged_rounds)
  end.

(** [_analyze_scoring]: [RuntimeError] when [self.api] is not set. *)
Definition _analyze_scoring {datetime} (api_set : bool)
           (work : list (Round.t datetime * (api_exn + value)))
  : string + list (Round.t datetime) * list (Round.t datetime) :=
  if negb api_set then inl "API not initialized"
  else inr (analyze_scoring_loop work).

(** ** utils/validators.py *)

(** [value.strip()] is not the empty string. *)
Definition not_blank (s : string) : bool := negb (Text.is_empty (Text.strip s)).

Definition validate_non_empty_string (value : value) (field_name : string)
  : result string :=
  match value with
  | VStr s =>
      if not_blank s then Ok (Text.strip s)
      else Raise (ValueError (field_name ++ " must be a non-empty string"))
  | _ => Raise (ValueError (field_name ++ " must be a non-empty string"))
  end.

(** The [try] block of [validate_selection_index]. *)
Definition selection_index_body (selection : string) (max_index : Z) : result Z :=
  index <- py_int (VStr (Text.strip selection)) ;;
  if (index <? 1) || (max_index <? index) then
    Raise (ValueError ("Selection must be between 1 and " ++ Text.of_Z max_index))
  else Ok (index - 1).

(** [except ValueError as e]: the message of [int] is replaced, any other
    [ValueError] is raised again. *)
Definition validate_selection_index (selection : string) (max_index : Z)
  : result Z :=
  match selection_index_body selection max_index with
  | Raise (ValueError m) =>
      if Text.contains "invalid literal" m
      then Raise (ValueError "Selection must be a number")
      else Raise (ValueError m)
  | r => r
  end.

Definition slen (s : string) : Z := Z.of_nat (String.length s).

Definition newline : string := String (ascii_of_nat 10) EmptyString.
Definition tab : string := String (ascii_of_nat 9) EmptyString.

Definition validate_api_key_format (api_key : value) : bool :=
  match api_key with
  | VStr s =>
      let api_key := Text.strip s in
      if slen api_key <? 10 then false
      else if Text.contains " " api_key || Text.contains newline api_key
              || Text.contains tab api_key then false
      else true
  | _ => false
  end.

(** [field not in data or data[field] is None] *)
Definition field_missing (data : list (string * value)) (field : string) : bool :=
  negb (dict_has data field)
  || match dict_get data field with Some v => is_none v | None => false end.

Definition validate_required_fields (data : list (string * value))
           (required_fields : list string) : result unit :=
  let missing_fields := filter (field_missing data) required_fields in
  match missing_fields with
  | [] => Ok tt
  | _ => Raise (ValueError ("Missing required fields: "
                            ++ Text.join ", " missing_fields))
  end.

(** [s.replace(old, new)] for one-character [old] and [new]. *)
Fixpoint replace_char (old new : ascii) (s : string) : string :=
  match s with
  | String c r => String (if Ascii.eqb c old then new else c) (replace_char old new r)
  | EmptyString => EmptyString
  end.

(** The characters [sanitize_filename] replaces: less-than, greater-than,
    colon, double quote, slash, backslash, bar, question mark, star. *)
Definition invalid_chars : string :=
  "<>:" ++ String Text.quote2 ("/" ++ String Text.backslash "|?*").

(** [for char in invalid_chars: sanitized = sanitized.replace(char, "_")] *)
Fixpoint replace_each (chars : string) (sanitized : string) : string :=
  match chars with
  | String char chars' => replace_each chars' (replace_char char "_" sanitized)
  | EmptyString => sanitized
  end.

(** Membership in the set that [strip(" .")] strips. *)
Definition space_or_dot (c : ascii) : bool := Text.has_char c " .".

Definition sanitize_filename (filename : string) : string :=
  let sanitized := replace_each invalid_chars filename in
  let sanitized := Text.strip_with space_or_dot sanitized in
  if Text.is_empty sanitized then "output" else sanitized.

(** The first character of [s] satisfies [p]; the last one does. *)
Definition starts_with (p : ascii -> bool) (s : string) : bool :=
  match s with String c _ => p c | EmptyString => false end.

Definition ends_with (p : ascii -> bool) (s : string) : bool :=
  starts_with p (Text.rev s).

(** Some character of [s] satisfies [p]. *)
Fixpoint any_char (p : ascii -> bool) (s : string) : bool :=
  match s with
  | String c r => p c || any_char p r
  | EmptyString => false
  end.

Fixpoint map_chars (f : ascii -> ascii) (s : string) : string :=
  match s with
  | String c r => String (f c) (map_chars f r)
  | EmptyString => EmptyString
  end.

(** One of the nine characters that [sanitize_filename] replaces. *)
Definition is_invalid_char (c : ascii) : bool := Text.has_char c invalid_chars.

(** [c * n]: the character [c] repeated [n] times. *)
Fixpoint repeat_char (c : ascii) (n : nat) : string :=
  match n with
  | O => EmptyString
  | S n' => String c (repeat_char c n')
  end.

(** The message of the digit-limit [ValueError] of [int]. *)
Definition digit_limit_message (digits : Z) : string :=
  "Exceeds the limit (4300 digits) for integer string conversion: value has "
  ++ Text.of_Z digits ++ " digits; use sys.set_int_max_str_digits() to increase the limit".

(** ** Config: the API key *)

(** [set_api_key] on the [api_key] attribute; the new attribute is
    returned. *)
Definition set_api_key (api_key : string) : result (option string) :=
  if Text.is_empty api_key || negb (not_blank api_key)
  then Raise (ValueError "API key cannot be empty")
  else Ok (Some (Text.strip api_key)).

Definition str_truthy (o : option string) : bool :=
  match o with Some s => negb (Text.is_empty s) | None => false end.

(** [get_api_key]: [env] is [os.getenv("GOLF_GENIUS_API_KEY")]; the key and
    the attribute as the call leaves it. *)
Definition get_api_key (env : option string) (self_api_key : option string)
  : result (string * option string) :=
  if negb (str_truthy self_api_key) then
    match env with
    | Some env_key =>
        if negb (Text.is_empty env_key)
        then Ok (Text.strip env_key, Some (Text.strip env_key))
        else Raise (ValueError "API key not set. Use set_api_key() or set GOLF_GENIUS_API_KEY environment variable.")
    | None => Raise (ValueError "API key not set. Use set_api_key() or set GOLF_GENIUS_API_KEY environment variable.")
    end
  else
    match self_api_key with
    | Some key => Ok (key, self_api_key)
    | None => Raise (ValueError "API key not set. Use set_api_key() or set GOLF_GENIUS_API_KEY environment variable.")
    end.

(** ** One player more in a tee sheet *)

(** The players of one entry of the tee sheet: the pairing group is taken
    out of its wrapper, if any, and handed to [_extract_players]; the part
    of the loop body between the [isinstance] test and the player loop. *)
Definition group_players (item : value) : result (list value) :=
  wrapped <- py_in "pairing_group" item ;;
  pairing_group <- (if wrapped then py_getitem item "pairing_group" else Ok item) ;;
  _extract_players pairing_group.

Definition bool_to_Z (b : bool) : Z := if b then 1 else 0.

(** What one player adds to the counters of [analyze_round_scoring], when
    the front half is valid ([has_front]) and when the back half is. *)
Definition analyze_gain (has_front has_back : bool) : A.locals :=
  A.Locals (bool_to_Z has_front) (bool_to_Z has_back) 1.

(** The same for the counters of [get_detailed_analysis]. *)
Definition detail_gain (has_front has_back : bool) (c : D.locals) : D.locals :=
  D.Locals (D.total_players c + 1)
           (D.front_9_players c + bool_to_Z has_front)
           (D.back_9_players c + bool_to_Z has_back)
           (D.complete_players c + bool_to_Z (has_front && has_back)).

(** [sheet] is [sheet'] with one player more, who is counted as a player
    and, according to [has_front] and [has_back], as a front-9 and as a
    back-9 player: by both traversals, and so in the verdict of
    [analyze_round_scoring] and in the record of [get_detailed_analysis]
    whenever the traversal of [sheet'] does not raise. *)
Definition counted_as (sheet sheet' : value) (has_front has_back : bool) : Prop :=
  analyze_pass sheet
  = (c <- analyze_pass sheet' ;; Ok (counts_add c (analyze_gain has_front has_back)))
  /\ detail_pass sheet
     = (c <- detail_pass sheet' ;; Ok (detail_gain has_front has_back c))
  /\ (forall c, analyze_pass sheet' = Ok c ->
       analyze_round_scoring sheet
       = Ok (analyze_decision (counts_add c (analyze_gain has_front has_back))))
  /\ (forall c, detail_pass sheet' = Ok c ->
       exists r, get_detailed_analysis sheet = Ok r
         /\ total_players r = D.total_players c + 1
         /\ front_9_players r = D.front_9_players c + bool_to_Z has_front
         /\ back_9_players r = D.back_9_players c + bool_to_Z has_back
         /\ complete_players r
            = D.complete_players c + bool_to_Z (has_front && has_back)).

(** When the halves of a player are examined, and what they are. *)
Definition halves (scores : list value) (hf hb : bool) : Prop :=
  (len scores < 18 /\ hf = false /\ hb = false)
  \/ (18 <= len scores
      /\ _has_valid_scores (slice scores 0 9) = Ok hf
      /\ _has_valid_scores (slice scores 9 18) = Ok hb).

(** ** Loops in the error monad *)

Section ForEach.
Context {X S : Type}.
Variable body : X -> S -> result S.

(** A property of the local variables that every iteration keeps holds
    when the loop ends. *)
Lemma for_each_invariant (P : S -> Prop) :
  (forall x s s', P s -> body x s = Ok s' -> P s') ->
  forall xs s s', P s -> for_each body xs s = Ok s' -> P s'.
Proof.
  intros Hstep xs; induction xs as [|x xs IH]; intros s s' Hs Hrun; simpl in Hrun.
  - injection Hrun as <-. exact Hs.
  - destruct (body x s) as [s1|e] eqn:E; simpl in Hrun; [|discriminate].
    eapply IH; [eapply Hstep; eassumption | exact Hrun].
Qed.
End ForEach.

Lemma for_each_same_outcome {X A B}
      (f : X -> A -> result A) (g : X -> B -> result B) :
  (forall x a b, same_outcome (f x a) (g x b)) ->
  forall xs a b, same_outcome (for_each f xs a) (for_each g xs b).
Proof.
  intros H xs; induction xs as [|x xs IH]; intros a b; simpl; [exact I|].
  specialize (H x a b).
  destruct (f x a) as [a'|e1], (g x b) as [b'|e2]; simpl in *;
    try contradiction; auto.
Qed.

(** ** The two traversals raise alike *)

Lemma player_same_outcome player a d :
  same_outcome (analyze_player player a) (detail_player player d).
Proof.
  unfold analyze_player, detail_player.
  destruct (is_dict player); simpl; [|exact I].
  destruct (_extract_scores player) as [scores|e]; simpl; [|reflexivity].
  destruct (18 <=? len scores); [|exact I].
  destruct (_has_valid_scores (slice scores 0 9)) as [hf|e]; simpl; [|reflexivity].
  destruct (_has_valid_scores (slice scores 9 18)) as [hb|e]; simpl; [|reflexivity].
  exact I.
Qed.

Lemma item_same_outcome item a d :
  same_outcome (analyze_item item a) (detail_item item d).
Proof.
  unfold analyze_item, detail_item.
  destruct (is_dict item); simpl; [|exact I].
  destruct (py_in "pairing_group" item) as [w|e]; simpl; [|reflexivity].
  destruct (if w then py_getitem item "pairing_group" else Ok item) as [pg|e];
    simpl; [|reflexivity].
  destruct (_extract_players pg) as [players|e]; simpl; [|reflexivity].
  apply for_each_same_outcome. intros; apply player_same_outcome.
Qed.

Lemma pass_same_outcome data :
  same_outcome (analyze_pass data) (detail_pass data).
Proof.
  unfold analyze_pass, detail_pass.
  destruct (py_iter data) as [items|e]; simpl; [|reflexivity].
  apply for_each_same_outcome. intros; apply item_same_outcome.
Qed.

(** Both entry points return on every input. *)
Lemma analyze_round_scoring_total data :
  exists verdict, analyze_round_scoring data = Ok verdict.
Proof.
  unfold analyze_round_scoring.
  destruct (truthy data); simpl; [|eauto].
  destruct (analyze_pass data); eauto.
Qed.

Lemma get_detailed_analysis_total data :
  exists r, get_detailed_analysis data = Ok r.
Proof.
  unfold get_detailed_analysis.
  destruct (truthy data) eqn:T; simpl; [|eauto].
  destruct (detail_pass data); [|eauto].
  destruct (analyze_round_scoring_total data) as [[f r] ->]. simpl. eauto.
Qed.

(** ** Totality and the exception fallback *)

(** C3: neither public entry point raises, whatever the input: each returns
    its tuple or record.  An exception raised by the traversal is turned
    into a flagged result that carries the exception's message; for
    [get_detailed_analysis] all the counts of that record are zero. *)
Theorem entry_points_never_raise data :
  (exists verdict, analyze_round_scoring data = Ok verdict)
  /\ (exists r, get_detailed_analysis data = Ok r)
  /\ (forall e, truthy data = true -> analyze_pass data = Raise e ->
        analyze_round_scoring data
        = Ok (true, "Error analyzing scores: " ++ exn_str e))
  /\ (forall e, truthy data = true -> detail_pass data = Raise e ->
        get_detailed_analysis data
        = Ok (Analysis 0 0 0 0 0 true ("Error analyzing scores: " ++ exn_str e))).
Proof.
  split; [apply analyze_round_scoring_total|].
  split; [apply get_detailed_analysis_total|].
  split; intros e T P.
  - unfold analyze_round_scoring. rewrite T, P. reflexivity.
  - unfold get_detailed_analysis. rewrite T, P. reflexivity.
Qed.

Lemma entry_points_never_raise_witness :
  analyze_round_scoring null_group_sheet
  = Ok (true, "Error analyzing scores: argument of type 'NoneType' is not iterable")
  /\ get_detailed_analysis null_group_sheet
     = Ok (Analysis 0 0 0 0 0 true
             "Error analyzing scores: argument of type 'NoneType' is not iterable").
Proof.
  destruct (entry_points_never_raise null_group_sheet) as (_ & _ & Ha & Hd).
  split.
  - apply (Ha (TypeError "argument of type 'NoneType' is not iterable"));
      reflexivity.
  - apply (Hd (TypeError "argument of type 'NoneType' is not iterable"));
      reflexivity.
Defined.

(** An infinite float among the scores: [int] raises [OverflowError], which
    the inner [except] does not catch; the entry point does. *)
Example infinite_score_is_flagged :
  analyze_round_scoring
    (sheet_of [player_of "P" (infinity :: repeat VNone 17)])
  = Ok (true, "Error analyzing scores: cannot convert float infinity to integer").
Proof. reflexivity. Qed.

(** ** The pre-check *)

(** C4: an empty or absent [tee_sheet_data] (any value that [not] takes for
    false, among them [None] and the empty list) is flagged with the reason
    [No tee sheet data available]; the traversal is not run. *)
Theorem empty_data_is_flagged data :
  truthy data = false ->
  analyze_round_scoring data = Ok (true, "No tee sheet data available").
Proof.
  intros T. unfold analyze_round_scoring. rewrite T. reflexivity.
Qed.

Lemma empty_data_is_flagged_witness :
  analyze_round_scoring (VList []) = Ok (true, "No tee sheet data available")
  /\ analyze_round_scoring VNone = Ok (true, "No tee sheet data available").
Proof.
  split; apply empty_data_is_flagged; reflexivity.
Defined.

(** The number 0 is falsy too: the traversal would raise on it, yet the
    result is the pre-check's, so the traversal was not run. *)
Example zero_data_skips_the_pass :
  analyze_pass (VInt 0) = Raise (TypeError "'int' object is not iterable")
  /\ analyze_round_scoring (VInt 0) = Ok (true, "No tee sheet data available").
Proof. split; reflexivity. Qed.

(** ** The detailed record *)

(** C8: every record [get_detailed_analysis] returns, the one for empty
    input and the one of the exception fallback included, has
    [incomplete_players = total_players - complete_players]. *)
Theorem incomplete_is_total_minus_complete data :
  exists r, get_detailed_analysis data = Ok r
            /\ incomplete_players r = total_players r - complete_players r.
Proof.
  unfold get_detailed_analysis.
  destruct (truthy data); simpl; [|eexists; split; reflexivity].
  destruct (detail_pass data) as [c|e]; [|eexists; split; reflexivity].
  destruct (analyze_round_scoring_total data) as [[f r] ->]. simpl.
  eexists; split; reflexivity.
Qed.

(** C9: the [is_flagged] and [flag_reason] fields of the record returned by
    [get_detailed_analysis] are the tuple [analyze_round_scoring] returns
    on the same input. *)
Theorem detailed_flag_is_analyze_flag data :
  exists r, get_detailed_analysis data = Ok r
            /\ analyze_round_scoring data = Ok (is_flagged r, flag_reason r).
Proof.
  unfold get_detailed_analysis.
  destruct (truthy data) eqn:T; simpl.
  - pose proof (pass_same_outcome data) as H.
    destruct (detail_pass data) as [c|e].
    + destruct (analyze_round_scoring_total data) as [[f r] E]. rewrite E. simpl.
      eexists; split; reflexivity.
    + eexists; split; [reflexivity|]. simpl.
      unfold analyze_round_scoring. rewrite T. simpl.
      destruct (analyze_pass data) as [c|e']; simpl in H; [contradiction|].
      subst e'. reflexivity.
  - eexists; split; [reflexivity|].
    unfold analyze_round_scoring. rewrite T. reflexivity.
Qed.

(** ** The decision after the traversal *)

Lemma analyze_decision_not_fallback c :
  analyze_decision c <> (false, "Unexpected scoring state").
Proof.
  unfold analyze_decision.
  destruct (A.total_players c =? 0); [discriminate|].
  destruct (0 <? A.total_front_9_scores c), (0 <? A.total_back_9_scores c);
    simpl; discriminate.
Qed.

(** C10: [analyze_round_scoring] never returns the catch-all result
    [(False, Unexpected scoring state)]: the four branches on the two
    booleans are exhaustive, for any values of the counters, so the final
    [return] is not reached. *)
Theorem fallback_return_unreachable data :
  analyze_round_scoring data <> Ok (false, "Unexpected scoring state")
  /\ forall c, analyze_pass data = Ok c ->
               analyze_decision c <> (false, "Unexpected scoring state").
Proof.
  split.
  - unfold analyze_round_scoring.
    destruct (truthy data); simpl; [|discriminate].
    destruct (analyze_pass data) as [c|e]; [|discriminate].
    intros H. injection H as H. exact (analyze_decision_not_fallback c H).
  - intros c _. apply analyze_decision_not_fallback.
Qed.

Lemma fallback_return_unreachable_witness :
  analyze_decision (A.Locals 0 0 1) <> (false, "Unexpected scoring state").
Proof.
  apply (proj2 (fallback_return_unreachable no_scores_sheet)). reflexivity.
Defined.

(** ** The counters of the traversal *)

Lemma analyze_player_counters player c c' :
  counters_ok c -> analyze_player player c = Ok c' -> counters_ok c'.
Proof.
  unfold counters_ok, analyze_player. intros Hc.
  destruct (is_dict player); simpl; [|intros [= <-]; exact Hc].
  destruct (_extract_scores player) as [scores|e]; simpl; [|discriminate].
  destruct (18 <=? len scores); [|intros [= <-]; simpl; lia].
  destruct (_has_valid_scores (slice scores 0 9)) as [hf|e]; simpl; [|discriminate].
  destruct (_has_valid_scores (slice scores 9 18)) as [hb|e]; simpl; [|discriminate].
  intros [= <-]. destruct hf, hb; simpl; lia.
Qed.

Lemma analyze_item_counters item c c' :
  counters_ok c -> analyze_item item c = Ok c' -> counters_ok c'.
Proof.
  unfold analyze_item. intros Hc.
  destruct (is_dict item); simpl; [|intros [= <-]; exact Hc].
  destruct (py_in "pairing_group" item) as [w|e]; simpl; [|discriminate].
  destruct (if w then py_getitem item "pairing_group" else Ok item) as [pg|e];
    simpl; [|discriminate].
  destruct (_extract_players pg) as [players|e]; simpl; [|discriminate].
  apply for_each_invariant; [|exact Hc].
  intros x s s'. apply analyze_player_counters.
Qed.

Lemma analyze_pass_counters data c :
  analyze_pass data = Ok c -> counters_ok c.
Proof.
  unfold analyze_pass.
  destruct (py_iter data) as [items|e]; simpl; [|discriminate].
  apply for_each_invariant.
  - intros x s s'. apply analyze_item_counters.
  - unfold counters_ok, analyze_init; simpl; lia.
Qed.

(** C1: when the traversal ends without an exception with both the front-9
    and the back-9 counter above zero, the round is flagged with the reason
    [Complete scoring detected: F9=<n>, B9=<m> players]; when only one of
    the two counters is above zero the round is not flagged. *)
Theorem complete_scoring_is_flagged data c :
  truthy data = true ->
  analyze_pass data = Ok c ->
  let n := A.total_front_9_scores c in
  let m := A.total_back_9_scores c in
  (0 < n -> 0 < m ->
   analyze_round_scoring data
   = Ok (true, "Complete scoring detected: F9=" ++ Text.of_Z n
               ++ ", B9=" ++ Text.of_Z m ++ " players"))
  /\ (0 < n -> m = 0 ->
      analyze_round_scoring data
      = Ok (false, "Only front 9 scores found (" ++ Text.of_Z n ++ "/"
                   ++ Text.of_Z (A.total_players c) ++ " players)"))
  /\ (n = 0 -> 0 < m ->
      analyze_round_scoring data
      = Ok (false, "Only back 9 scores found (" ++ Text.of_Z m ++ "/"
                   ++ Text.of_Z (A.total_players c) ++ " players)")).
Proof.
  intros T P n m.
  destruct (analyze_pass_counters data c P) as [Hf Hb].
  fold n in Hf. fold m in Hb.
  unfold analyze_round_scoring. rewrite T, P. simpl.
  unfold analyze_decision. fold n m.
  repeat split; intros Hn Hm.
  - destruct (Z.eqb_spec (A.total_players c) 0); [lia|].
    destruct (Z.ltb_spec 0 n); [|lia].
    destruct (Z.ltb_spec 0 m); [|lia]. reflexivity.
  - destruct (Z.eqb_spec (A.total_players c) 0); [lia|].
    destruct (Z.ltb_spec 0 n); [|lia].
    destruct (Z.ltb_spec 0 m); [lia|]. reflexivity.
  - destruct (Z.eqb_spec (A.total_players c) 0); [lia|].
    destruct (Z.ltb_spec 0 n); [lia|].
    destruct (Z.ltb_spec 0 m); [|lia]. reflexivity.
Qed.

Lemma complete_scoring_is_flagged_witness :
  analyze_round_scoring complete_sheet
  = Ok (true, "Complete scoring detected: F9=1, B9=1 players")
  /\ analyze_round_scoring back_only_sheet
     = Ok (false, "Only back 9 scores found (1/1 players)").
Proof.
  split.
  - apply (proj1 (complete_scoring_is_flagged complete_sheet (A.Locals 1 1 1)
                    eq_refl eq_refl)); reflexivity.
  - apply (proj2 (proj2 (complete_scoring_is_flagged back_only_sheet
                           (A.Locals 0 1 1) eq_refl eq_refl))); reflexivity.
Defined.

(** C2: the tee sheet of the unit test [test_analyze_front_9_only], one
    player with scores 4,5,3,4,5,4,4,3,5 and then nine [None].  The reason
    is the one expected, but the round is not flagged. *)
Theorem front_nine_only_verdict :
  _extract_scores (player_of "Test Player" (front_scores ++ nine_none))
  = Ok (ints [4; 5; 3; 4; 5; 4; 4; 3; 5] ++ repeat VNone 9)%list
  /\ analyze_round_scoring front_only_sheet
     = Ok (false, "Only front 9 scores found (1/1 players)")
  /\ Text.contains "Only front 9 scores found"
       "Only front 9 scores found (1/1 players)" = true.
Proof. repeat split. Qed.

(** ** Short score lists and the two halves *)

Lemma firstn_ext {A} (n : nat) (l l' : list A) :
  (forall i, (i < n)%nat -> nth_error l i = nth_error l' i) ->
  firstn n l = firstn n l'.
Proof.
  revert l l'; induction n as [|n IH]; intros l l' H; [reflexivity|].
  pose proof (H 0%nat (Nat.lt_0_succ n)) as H0.
  destruct l as [|x l], l' as [|x' l']; simpl in *; try discriminate;
    [reflexivity|].
  injection H0 as ->. f_equal. apply IH.
  intros i Hi. apply (H (S i)). lia.
Qed.

(** Both halves are cut out of the first 18 scores. *)
Lemma slice_front_of_first_18 {A} (l : list A) :
  slice l 0 9 = firstn 9 (firstn 18 l).
Proof. unfold slice. rewrite firstn_firstn. reflexivity. Qed.

Lemma slice_back_of_first_18 {A} (l : list A) :
  slice l 9 18 = skipn 9 (firstn 18 l).
Proof. unfold slice. rewrite skipn_firstn_comm. reflexivity. Qed.

Lemma extract_scores_loop_dict keys d :
  exists found, extract_scores_loop keys (VDict d) = Ok found.
Proof.
  induction keys as [|key keys IH]; simpl; [eauto|].
  unfold dict_has. destruct (dict_get d key) as [x|]; simpl; [|exact IH].
  destruct x; eauto.
Qed.

(** [_extract_scores] does not raise on a mapping. *)
Lemma extract_scores_dict d :
  exists scores, _extract_scores (VDict d) = Ok scores.
Proof.
  unfold _extract_scores.
  destruct (extract_scores_loop_dict score_keys d) as [[scores|] ->]; simpl; eauto.
Qed.

(** The two loop bodies on one player: with fewer than 18 scores they add
    one to the player count and nothing else; with 18 or more, what they
    add depends on the elements at indices 0 to 17 only. *)
Lemma player_step_by_length pd scores a d :
  _extract_scores (VDict pd) = Ok scores ->
  (len scores < 18 ->
   analyze_player (VDict pd) a
   = Ok (A.Locals (A.total_front_9_scores a) (A.total_back_9_scores a)
                  (A.total_players a + 1))
   /\ detail_player (VDict pd) d
      = Ok (D.Locals (D.total_players d + 1) (D.front_9_players d)
                     (D.back_9_players d) (D.complete_players d)))
  /\ (18 <= len scores ->
      forall pd' scores',
        _extract_scores (VDict pd') = Ok scores' ->
        18 <= len scores' ->
        (forall i, (i < 18)%nat -> nth_error scores' i = nth_error scores i) ->
        analyze_player (VDict pd') a = analyze_player (VDict pd) a
        /\ detail_player (VDict pd') d = detail_player (VDict pd) d).
Proof.
  intros E. split.
  - intros Hlen. unfold analyze_player, detail_player. simpl. rewrite E. simpl.
    destruct (Z.leb_spec 18 (len scores)); [lia|]. split; reflexivity.
  - intros Hlen pd' scores' E' Hlen' Hsame.
    unfold analyze_player, detail_player. simpl. rewrite E, E'. simpl.
    destruct (Z.leb_spec 18 (len scores)); [|lia].
    destruct (Z.leb_spec 18 (len scores')); [|lia].
    rewrite !slice_front_of_first_18, !slice_back_of_first_18.
    rewrite (firstn_ext 18 scores' scores Hsame). split; reflexivity.
Qed.

Example player_step_by_length_example :
  analyze_player (player_of "P" (ints [4; 5; 3; 4; 5])) analyze_init
  = Ok (A.Locals 0 0 1)
  /\ analyze_player (player_of "P" (front_scores ++ back_scores ++ ints [9; 9]))
       analyze_init
     = analyze_player (player_of "P" (front_scores ++ back_scores)) analyze_init.
Proof.
  split.
  - apply (proj1 (player_step_by_length
                    [("name", VStr "P"); ("scores", VList (ints [4; 5; 3; 4; 5]))]
                    (ints [4; 5; 3; 4; 5]) analyze_init detail_init eq_refl)).
    reflexivity.
  - refine (proj1 (proj2 (player_step_by_length
                    [("name", VStr "P"); ("scores", VList (front_scores ++ back_scores))]
                    (front_scores ++ back_scores) analyze_init detail_init eq_refl)
                    _
                    [("name", VStr "P");
                     ("scores", VList (front_scores ++ back_scores ++ ints [9; 9]))]
                    (front_scores ++ back_scores ++ ints [9; 9])%list eq_refl _ _)).
    + vm_compute. discriminate.
    + vm_compute. discriminate.
    + intros i Hi.
      do 18 (destruct i as [|i]; [reflexivity|]). lia.
Qed.

(** ** Scores that are not numbers *)

Lemma py_int_raise v e :
  py_int v = Raise e ->
  match e with
  | ValueError _ | TypeError _ => True
  | OverflowError _ => is_infinite v = true
  | KeyError _ => False
  end.
Proof.
  destruct v as [| b | n | f | s | l | d]; simpl; try discriminate;
    try (intros [= <-]; exact I).
  - destruct (fl_val f); try discriminate; intros [= <-]; [reflexivity | exact I].
  - destruct (parse_int s) as [n | k |]; [discriminate | |]; intros [= <-]; exact I.
Qed.

Lemma skipped_not_empty_dict score :
  skipped score = false -> is_dict score && negb (truthy score) = false.
Proof.
  destruct score as [| b | n | f | s | l | [|kv d]]; simpl; auto; discriminate.
Qed.

Lemma text_counts_intro score :
  Text.strip (py_str score) <> EmptyString ->
  py_str score <> "{}" ->
  text_counts score = true.
Proof.
  intros Hs Hb. unfold text_counts.
  destruct (Text.strip (py_str score)); [contradiction|]. simpl.
  destruct (String.eqb_spec (py_str score) "{}"); [contradiction | reflexivity].
Qed.

(** C5 fails as written.  Nine scores that are one blank each: no valid
    score is found.  And an infinite float before a text score: the
    predicate raises. *)
Lemma blank_text_does_not_count :
  ~ unstripped_text_counts (repeat (VStr " ") 9) (VStr " ")
  /\ ~ unstripped_text_counts (infinity :: repeat (VStr "X") 8) (VStr "X").
Proof.
  split; intros H.
  - assert (E : _has_valid_scores (repeat (VStr " ") 9) = Ok true).
    { apply H; try reflexivity; try discriminate.
      - left; reflexivity.
      - eexists; left; reflexivity. }
    vm_compute in E. discriminate.
  - assert (E : _has_valid_scores (infinity :: repeat (VStr "X") 8) = Ok true).
    { apply H; try reflexivity; try discriminate.
      - right; left; reflexivity.
      - eexists; left; reflexivity. }
    vm_compute in E. discriminate.
Qed.

(** C5, amended: a score that is not skipped, on which [int] raises
    [ValueError] or [TypeError], whose text is not blank once stripped and
    is not [{}], keeps the predicate from returning false; and the
    predicate returns true when no score of the slice is an infinite
    float. *)
Theorem unparsed_text_counts scores score :
  In score scores ->
  skipped score = false ->
  int_fails score ->
  Text.strip (py_str score) <> EmptyString ->
  py_str score <> "{}" ->
  _has_valid_scores scores <> Ok false
  /\ ((forall y, In y scores -> is_infinite y = false) ->
      _has_valid_scores scores = Ok true).
Proof.
  intros Hin Hskip [m Hint] Hstrip Hbraces.
  pose proof (text_counts_intro score Hstrip Hbraces) as Htext.
  induction scores as [|y rest IH]; [contradiction|].
  simpl. destruct Hin as [-> | Hin].
  - rewrite Hskip, (skipped_not_empty_dict score Hskip).
    destruct Hint as [-> | ->]; rewrite Htext;
      (split; [discriminate | intros; reflexivity]).
  - specialize (IH Hin). destruct IH as [IH1 IH2].
    assert (IH2' : (forall z, In z (y :: rest) -> is_infinite z = false) ->
                   _has_valid_scores rest = Ok true).
    { intros Hall. apply IH2. intros z Hz. apply Hall. right; exact Hz. }
    destruct (skipped y); [split; assumption|].
    destruct (is_dict y && negb (truthy y)); [split; assumption|].
    destruct (py_int y) as [n|e] eqn:E.
    + destruct ((1 <=? n) && (n <=? 15)); [|split; assumption].
      split; [discriminate | intros; reflexivity].
    + pose proof (py_int_raise y e E) as He.
      destruct e as [msg | msg | msg | msg]; try contradiction.
      * destruct (text_counts y); [|split; assumption].
        split; [discriminate | intros; reflexivity].
      * destruct (text_counts y); [|split; assumption].
        split; [discriminate | intros; reflexivity].
      * split; [discriminate|].
        intros Hall. rewrite (Hall y (or_introl eq_refl)) in He. discriminate.
Qed.

Lemma unparsed_text_counts_witness :
  _has_valid_scores (repeat VNone 8 ++ [VStr "NS"]) = Ok true.
Proof.
  refine (proj2 (unparsed_text_counts (repeat VNone 8 ++ [VStr "NS"]) (VStr "NS")
                   _ eq_refl _ _ _) _).
  - do 8 right. left. reflexivity.
  - exists ("invalid literal for int() with base 10: 'NS'"). left. reflexivity.
  - vm_compute. discriminate.
  - vm_compute. discriminate.
  - intros y Hy. simpl in Hy.
    repeat (destruct Hy as [<- | Hy]; [reflexivity|]). contradiction.
Defined.

(** ** The player list of a pairing group *)

(** C6 fails as written.  Two mappings with [players: None] first; the
    second has a [members] list as well, and that list is the result. *)
Lemma later_alias_key_is_used :
  ~ exists F, first_key_decides F.
Proof.
  intros [F H].
  pose proof (H [("players", VNone)] "players" VNone
                ["player"; "pairing"; "members"] eq_refl) as H1.
  pose proof (H [("players", VNone); ("members", VList [VStr "p"])]
                "players" VNone ["player"; "pairing"; "members"] eq_refl) as H2.
  rewrite <- H1 in H2. vm_compute in H2. discriminate.
Qed.

Lemma players_from_first_alias keys d key v keys' :
  first_alias keys d = Some (key, v, keys') ->
  players_from keys (VDict d)
  = match v with
    | VList l => Ok l
    | VDict _ => Ok [v]
    | _ => players_from keys' (VDict d)
    end.
Proof.
  induction keys as [|k keys IH]; simpl; [discriminate|].
  unfold players_from in *. simpl. unfold dict_has.
  destruct (dict_get d k) as [x|] eqn:G; simpl.
  - intros [= <- <- <-]. destruct x; reflexivity.
  - exact IH.
Qed.

(** C6, amended: with the first alias key that the mapping has, in the
    order [players], [player], [pairing], [members]: a list under it is
    returned as it is and a mapping under it is wrapped in a one-element
    list, whatever the later keys hold; any other value is passed over, and
    the result is that of the search over the later alias keys and the
    [name]/[scores] fallback. *)
Theorem first_usable_alias_wins d key v keys' :
  first_alias player_keys d = Some (key, v, keys') ->
  match v with
  | VList l => _extract_players (VDict d) = Ok l
  | VDict _ => _extract_players (VDict d) = Ok [v]
  | _ => _extract_players (VDict d) = players_from keys' (VDict d)
  end.
Proof.
  intros H. unfold _extract_players.
  rewrite (players_from_first_alias _ _ _ _ _ H). destruct v; reflexivity.
Qed.

Lemma first_usable_alias_wins_witness :
  _extract_players (VDict [("player", VDict [("name", VStr "X")])])
  = Ok [VDict [("name", VStr "X")]].
Proof.
  exact (first_usable_alias_wins [("player", VDict [("name", VStr "X")])]
           "player" (VDict [("name", VStr "X")]) ["pairing"; "members"] eq_refl).
Defined.

(** ** The traversal of a one-group sheet, and the unit tests *)

(** On a sheet of one [players] group the traversal is the player loop. *)
Lemma analyze_pass_sheet_of players :
  analyze_pass (sheet_of players) = for_each analyze_player players analyze_init.
Proof.
  unfold analyze_pass, sheet_of. simpl. unfold analyze_item. simpl.
  destruct (for_each analyze_player players analyze_init); reflexivity.
Qed.

Lemma detail_pass_sheet_of players :
  detail_pass (sheet_of players) = for_each detail_player players detail_init.
Proof.
  unfold detail_pass, sheet_of. simpl. unfold detail_item. simpl.
  destruct (for_each detail_player players detail_init); reflexivity.
Qed.

(** [test_has_valid_scores_*] *)
Example has_valid_scores_tests :
  _has_valid_scores [VInt 4; VInt 5; VInt 3; VNone; VInt 6] = Ok true
  /\ _has_valid_scores [VNone; VStr EmptyString; VInt 0; VNone] = Ok false
  /\ _has_valid_scores [] = Ok false.
Proof. repeat split. Qed.

(** [test_extract_players_*] and [test_extract_scores_*] *)
Example extract_tests :
  _extract_players
    (VDict [("players", VList [VDict [("name", VStr "Player 1")];
                               VDict [("name", VStr "Player 2")]])])
  = Ok [VDict [("name", VStr "Player 1")]; VDict [("name", VStr "Player 2")]]
  /\ _extract_players (VDict [("player", VDict [("name", VStr "Single Player")])])
     = Ok [VDict [("name", VStr "Single Player")]]
  /\ _extract_scores (VDict [("scores", VList (ints [4; 5; 3; 4; 5]))])
     = Ok (ints [4; 5; 3; 4; 5])
  /\ _extract_scores (VDict [("name", VStr "Test Player")]) = Ok [].
Proof. repeat split. Qed.

(** [test_get_detailed_analysis] *)
Example detailed_analysis_test :
  get_detailed_analysis two_player_sheet
  = Ok (Analysis 2 2 1 1 1 true "Complete scoring detected: F9=2, B9=1 players").
Proof. reflexivity. Qed.

(** The payloads of [test_analyze_complete_scores], [test_analyze_back_9_only]
    and [test_analyze_no_scores]: the reasons are the ones the tests look
    for, the flags are the opposite of the ones they assert. *)
Example analyze_tests_flags :
  analyze_round_scoring complete_sheet
  = Ok (true, "Complete scoring detected: F9=1, B9=1 players")
  /\ analyze_round_scoring back_only_sheet
     = Ok (false, "Only back 9 scores found (1/1 players)")
  /\ analyze_round_scoring no_scores_sheet
     = Ok (false, "No scores found on either front or back 9").
Proof. repeat split. Qed.

(** A player with a short score list in a real round: counted as a player,
    in no half. *)
Example short_list_in_a_round :
  get_detailed_analysis
    (sheet_of [player_of "Short" (ints [4; 5; 3; 4; 5; 4; 4; 3; 5; 4]);
               player_of "Front 9 Only" (front_scores ++ nine_none)])
  = Ok (Analysis 2 1 0 0 2 false "Only front 9 scores found (1/2 players)").
Proof. reflexivity. Qed.

(** ** More on loops *)

Lemma for_each_app {X S} (body : X -> S -> result S) xs ys s :
  for_each body (xs ++ ys) s = bind (for_each body xs s) (for_each body ys).
Proof.
  revert s; induction xs as [|x xs IH]; intros s; simpl; [reflexivity|].
  destruct (body x s) as [s'|e]; simpl; [apply IH | reflexivity].
Qed.

Lemma for_each_ext {X S} (f g : X -> S -> result S) xs s :
  (forall x s, In x xs -> f x s = g x s) ->
  for_each f xs s = for_each g xs s.
Proof.
  revert s; induction xs as [|x xs IH]; intros s H; simpl; [reflexivity|].
  rewrite (H x s (or_introl eq_refl)).
  destruct (g x s) as [s'|e]; simpl; [|reflexivity].
  apply IH. intros y t Hy. apply H. right; exact Hy.
Qed.

Lemma for_each_map {X Y S} (h : X -> Y) (body : Y -> S -> result S) xs s :
  for_each body (map h xs) s = for_each (fun x => body (h x)) xs s.
Proof.
  revert s; induction xs as [|x xs IH]; intros s; simpl; [reflexivity|].
  destruct (body (h x) s) as [s'|e]; simpl; [apply IH | reflexivity].
Qed.

(** A loop body that commutes with a change [shift] of the local variables
    makes a loop that does. *)
Lemma for_each_shift {X S} (body : X -> S -> result S) (shift : S -> S) :
  (forall x s, body x (shift s) = bind (body x s) (fun s' => Ok (shift s'))) ->
  forall xs s,
    for_each body xs (shift s)
    = bind (for_each body xs s) (fun s' => Ok (shift s')).
Proof.
  intros H xs; induction xs as [|x xs IH]; intros s; simpl; [reflexivity|].
  rewrite H. destruct (body x s) as [s'|e]; simpl; [apply IH | reflexivity].
Qed.

Lemma for_each_related {X A B} (R : A -> B -> Prop)
      (f : X -> A -> result A) (g : X -> B -> result B) :
  (forall x a b, R a b -> related_outcome R (f x a) (g x b)) ->
  forall xs a b, R a b -> related_outcome R (for_each f xs a) (for_each g xs b).
Proof.
  intros H xs; induction xs as [|x xs IH]; intros a b Hab; simpl; [exact Hab|].
  specialize (H x a b Hab).
  destruct (f x a) as [a'|e1], (g x b) as [b'|e2]; simpl in *;
    try contradiction; auto.
Qed.

(** ** The validity predicate, further *)

(** X1: The predicate on a concatenation: the second part is looked at only
    when the first has no valid score, and an exception in the first part
    wins. *)
Theorem has_valid_scores_app xs ys :
  _has_valid_scores (xs ++ ys)
  = (found <- _has_valid_scores xs ;;
     if found then Ok true else _has_valid_scores ys).
Proof.
  induction xs as [|x xs IH]; simpl; [reflexivity|].
  destruct (skipped x); [exact IH|].
  destruct (is_dict x && negb (truthy x)); [exact IH|].
  destruct (py_int x) as [n|e].
  - destruct ((1 <=? n) && (n <=? 15)); [reflexivity | exact IH].
  - destruct e; try reflexivity;
      (destruct (text_counts x); [reflexivity | exact IH]).
Qed.

(** X2: On integer scores the predicate says whether one of them lies between
    1 and 15: zero, negative numbers and numbers above 15 never count. *)
Theorem has_valid_scores_ints l :
  _has_valid_scores (ints l) = Ok (existsb plausible l).
Proof.
  induction l as [|n l IH]; simpl; [reflexivity|].
  unfold skipped, plausible. simpl.
  destruct (Z.eqb_spec n 0) as [->|Hn]; simpl; [exact IH|].
  destruct ((1 <=? n) && (n <=? 15)); simpl; [reflexivity | exact IH].
Qed.

(** X3: The predicate raises nothing but [OverflowError], and that only when
    the slice holds an infinite float. *)
Theorem has_valid_scores_raise scores e :
  _has_valid_scores scores = Raise e ->
  (exists msg, e = OverflowError msg)
  /\ exists y, In y scores /\ is_infinite y = true.
Proof.
  induction scores as [|x rest IH]; simpl; [discriminate|].
  assert (Hrest : _has_valid_scores rest = Raise e ->
                  (exists msg, e = OverflowError msg)
                  /\ exists y, (x = y \/ In y rest) /\ is_infinite y = true).
  { intros H. destruct (IH H) as [He [y [Hy Hi]]].
    split; [exact He | exists y; split; [right; exact Hy | exact Hi]]. }
  destruct (skipped x); [exact Hrest|].
  destruct (is_dict x && negb (truthy x)); [exact Hrest|].
  destruct (py_int x) as [n|e'] eqn:E.
  - destruct ((1 <=? n) && (n <=? 15)); [discriminate | exact Hrest].
  - pose proof (py_int_raise x e' E) as He'.
    destruct e' as [m | m | m | m]; try contradiction.
    + destruct (text_counts x); [discriminate | exact Hrest].
    + destruct (text_counts x); [discriminate | exact Hrest].
    + intros [= <-]. split; [eexists; reflexivity|].
      exists x; split; [left; reflexivity | exact He'].
Qed.

Lemma has_valid_scores_raise_witness :
  exists y, In y (infinity :: repeat VNone 8) /\ is_infinite y = true.
Proof.
  exact (proj2 (has_valid_scores_raise (infinity :: repeat VNone 8)
                  (OverflowError "cannot convert float infinity to integer")
                  eq_refl)).
Defined.

(** ** The score list of a player, further *)

Lemma extract_scores_loop_skip keys d :
  (forall k, In k keys -> holds_list d k = false) ->
  extract_scores_loop keys (VDict d) = Ok None.
Proof.
  induction keys as [|key keys IH]; intros H; simpl; [reflexivity|].
  pose proof (H key (or_introl eq_refl)) as Hk.
  unfold holds_list in Hk. unfold dict_has.
  assert (IH' : extract_scores_loop keys (VDict d) = Ok None).
  { apply IH. intros k Hin. apply H. right; exact Hin. }
  destruct (dict_get d key) as [x|]; simpl; [|exact IH'].
  destruct x; try exact IH'. discriminate.
Qed.

Lemma extract_scores_loop_app keys1 keys2 d :
  (forall k, In k keys1 -> holds_list d k = false) ->
  extract_scores_loop (keys1 ++ keys2) (VDict d)
  = extract_scores_loop keys2 (VDict d).
Proof.
  induction keys1 as [|key keys IH]; intros H; simpl; [reflexivity|].
  pose proof (H key (or_introl eq_refl)) as Hk.
  unfold holds_list in Hk. unfold dict_has.
  assert (IH' : extract_scores_loop (keys ++ keys2) (VDict d)
                = extract_scores_loop keys2 (VDict d)).
  { apply IH. intros k Hin. apply H. right; exact Hin. }
  destruct (dict_get d key) as [x|]; simpl; [|exact IH'].
  destruct x; try exact IH'. discriminate.
Qed.

(** X4: The score list of a player mapping is the list under the first of
    [score_array], [scores], [score], [holes], [hole_scores] that holds a
    list; a key that is missing or holds something else is passed over. *)
Theorem extract_scores_first_list d before key after l :
  score_keys = (before ++ key :: after)%list ->
  (forall k, In k before -> holds_list d k = false) ->
  dict_get d key = Some (VList l) ->
  _extract_scores (VDict d) = Ok l.
Proof.
  intros Hkeys Hbefore Hget. unfold _extract_scores. rewrite Hkeys.
  rewrite (extract_scores_loop_app before (key :: after) d Hbefore).
  simpl. unfold dict_has. rewrite Hget. reflexivity.
Qed.

Lemma extract_scores_first_list_witness :
  _extract_scores (VDict [("score", VInt 72); ("holes", VList (ints [4; 5]))])
  = Ok (ints [4; 5]).
Proof.
  apply (extract_scores_first_list _ ["score_array"; "scores"; "score"] "holes"
           ["hole_scores"]); [reflexivity | | reflexivity].
  intros k Hk. simpl in Hk.
  repeat (destruct Hk as [<- | Hk]; [reflexivity|]). contradiction.
Defined.

(** X5: With no list under any of the five keys the player has no scores: the
    empty list, not an exception. *)
Theorem extract_scores_none d :
  (forall k, In k score_keys -> holds_list d k = false) ->
  _extract_scores (VDict d) = Ok [].
Proof.
  intros H. unfold _extract_scores.
  rewrite (extract_scores_loop_skip score_keys d H). reflexivity.
Qed.

Lemma extract_scores_none_witness :
  _extract_scores (VDict [("name", VStr "X"); ("scores", VStr "4,5,3")]) = Ok [].
Proof.
  apply extract_scores_none. intros k Hk. simpl in Hk.
  repeat (destruct Hk as [<- | Hk]; [reflexivity|]). contradiction.
Defined.

(** ** The player list of a pairing group, further *)

Lemma extract_players_loop_dict keys d :
  (exists players,
      extract_players_loop keys (VDict d) = Ok (Some players)
      /\ ((exists key, In key keys /\ dict_get d key = Some (VList players))
          \/ exists key g, In key keys /\ dict_get d key = Some (VDict g)
                           /\ players = [VDict g]))
  \/ (extract_players_loop keys (VDict d) = Ok None
      /\ forall k, In k keys -> holds_players d k = false).
Proof.
  induction keys as [|key keys IH]; simpl.
  - right. split; [reflexivity | intros k []].
  - unfold dict_has.
    assert (Hkeep : holds_players d key = false ->
      (exists players,
          extract_players_loop keys (VDict d) = Ok (Some players)
          /\ ((exists k, (key = k \/ In k keys) /\ dict_get d k = Some (VList players))
              \/ exists k g, (key = k \/ In k keys) /\ dict_get d k = Some (VDict g)
                             /\ players = [VDict g]))
      \/ (extract_players_loop keys (VDict d) = Ok None
          /\ forall k, key = k \/ In k keys -> holds_players d k = false)).
    { intros Hk. destruct IH as [[players [E [[k [Hin Hg]] | [k [g [Hin [Hg Hp]]]]]]] | [E Hnone]].
      - left. exists players. split; [exact E|]. left. exists k. auto.
      - left. exists players. split; [exact E|]. right. exists k, g. auto.
      - right. split; [exact E|]. intros k [<- | Hin]; [exact Hk | apply Hnone; exact Hin]. }
    unfold holds_players in Hkeep.
    destruct (dict_get d key) as [x|] eqn:G; simpl; [|apply Hkeep; reflexivity].
    destruct x; try (apply Hkeep; reflexivity).
    + left. eexists. split; [reflexivity|]. left. exists key. auto.
    + left. eexists. split; [reflexivity|]. right. exists key, d0. auto.
Qed.

(** X6: On a mapping [_extract_players] does not raise, and what it returns is
    a list found under one of the alias keys, a mapping found under one of
    them wrapped in a list, the pairing group itself as the only player, or
    nothing. *)
Theorem extract_players_of_mapping d :
  exists players,
    _extract_players (VDict d) = Ok players
    /\ ((exists key, In key player_keys /\ dict_get d key = Some (VList players))
        \/ (exists key g, In key player_keys /\ dict_get d key = Some (VDict g)
                          /\ players = [VDict g])
        \/ players = [VDict d]
        \/ players = []).
Proof.
  unfold _extract_players, players_from.
  destruct (extract_players_loop_dict player_keys d)
    as [[players [-> H]] | [-> _]]; simpl.
  - exists players. split; [reflexivity|]. destruct H; auto.
  - unfold players_fallback. simpl.
    destruct (dict_has d "name"); simpl; [eauto 6|].
    destruct (dict_has d "scores"); simpl; eauto 6.
Qed.

(** X7: When none of the alias keys holds a list or a mapping, the pairing
    group is itself the player if it has a [name] or a [scores] key, and
    there is no player otherwise. *)
Theorem extract_players_fallback d :
  (forall k, In k player_keys -> holds_players d k = false) ->
  _extract_players (VDict d)
  = Ok (if dict_has d "name" || dict_has d "scores" then [VDict d] else []).
Proof.
  intros H. unfold _extract_players, players_from.
  destruct (extract_players_loop_dict player_keys d)
    as [[players [_ [[k [Hin Hg]] | [k [g [Hin [Hg _]]]]]]] | [-> _]].
  - specialize (H k Hin). unfold holds_players in H. rewrite Hg in H. discriminate.
  - specialize (H k Hin). unfold holds_players in H. rewrite Hg in H. discriminate.
  - simpl. unfold players_fallback. simpl.
    destruct (dict_has d "name"); simpl; [reflexivity|].
    destruct (dict_has d "scores"); reflexivity.
Qed.

Lemma extract_players_fallback_witness :
  _extract_players (VDict [("players", VNone); ("scores", VList [])])
  = Ok [VDict [("players", VNone); ("scores", VList [])]].
Proof.
  apply (extract_players_fallback [("players", VNone); ("scores", VList [])]).
  intros k Hk. simpl in Hk.
  repeat (destruct Hk as [<- | Hk]; [reflexivity|]). contradiction.
Defined.

(** A pairing group that is [None], a truth value or a number makes the
    first membership test raise [TypeError]. *)
Theorem extract_players_scalar_raises g :
  is_scalar g = true ->
  _extract_players g
  = Raise (TypeError ("argument of type '" ++ type_name g ++ "' is not iterable")).
Proof.
  destruct g; simpl; intros H; try discriminate; reflexivity.
Qed.

Lemma extract_players_scalar_raises_witness :
  _extract_players VNone
  = Raise (TypeError "argument of type 'NoneType' is not iterable").
Proof.
  exact (extract_players_scalar_raises VNone eq_refl).
Defined.

(** ** Sheets put together *)

Lemma counts_add_comm a b : counts_add a b = counts_add b a.
Proof. unfold counts_add. f_equal; lia. Qed.

Lemma counts_add_init a : counts_add analyze_init a = a.
Proof. destruct a; reflexivity. Qed.

Lemma analyze_player_shift k player c :
  analyze_player player (counts_add c k)
  = bind (analyze_player player c) (fun c' => Ok (counts_add c' k)).
Proof.
  unfold analyze_player.
  destruct (is_dict player); simpl; [|reflexivity].
  destruct (_extract_scores player) as [scores|e]; simpl; [|reflexivity].
  destruct (18 <=? len scores).
  - destruct (_has_valid_scores (slice scores 0 9)) as [hf|e]; simpl; [|reflexivity].
    destruct (_has_valid_scores (slice scores 9 18)) as [hb|e]; simpl; [|reflexivity].
    destruct hf, hb; unfold counts_add; simpl; do 2 f_equal; lia.
  - simpl. unfold counts_add; simpl; do 2 f_equal; lia.
Qed.

Lemma analyze_item_shift k item c :
  analyze_item item (counts_add c k)
  = bind (analyze_item item c) (fun c' => Ok (counts_add c' k)).
Proof.
  unfold analyze_item.
  destruct (is_dict item); simpl; [|reflexivity].
  destruct (py_in "pairing_group" item) as [w|e]; simpl; [|reflexivity].
  destruct (if w then py_getitem item "pairing_group" else Ok item) as [pg|e];
    simpl; [|reflexivity].
  destruct (_extract_players pg) as [players|e]; simpl; [|reflexivity].
  apply (for_each_shift analyze_player (fun c => counts_add c k)).
  intros x s0. apply analyze_player_shift.
Qed.

Lemma for_each_item_app xs ys :
  for_each analyze_item (xs ++ ys) analyze_init
  = (a <- for_each analyze_item xs analyze_init ;;
     b <- for_each analyze_item ys analyze_init ;;
     Ok (counts_add a b)).
Proof.
  rewrite for_each_app.
  destruct (for_each analyze_item xs analyze_init) as [a|e]; simpl; [|reflexivity].
  rewrite <- (counts_add_init a) at 1.
  rewrite (for_each_shift analyze_item (fun c => counts_add c a)
             (fun x s0 => analyze_item_shift a x s0)).
  destruct (for_each analyze_item ys analyze_init) as [b|e]; simpl; [|reflexivity].
  rewrite counts_add_comm. reflexivity.
Qed.

(** X8: The traversal of two sheets put end to end: the counters are the sums
    of the counters of the two parts, and the first exception wins. *)
Theorem analyze_pass_app xs ys :
  analyze_pass (VList (xs ++ ys))
  = (a <- analyze_pass (VList xs) ;;
     b <- analyze_pass (VList ys) ;;
     Ok (counts_add a b)).
Proof.
  unfold analyze_pass. cbn [py_iter bind].
  rewrite for_each_item_app. reflexivity.
Qed.

Lemma analyze_pass_cons x l :
  analyze_pass (VList (x :: l))
  = (a <- analyze_pass (VList [x]) ;;
     b <- analyze_pass (VList l) ;;
     Ok (counts_add a b)).
Proof.
  unfold analyze_pass. cbn [py_iter bind].
  exact (for_each_item_app [x] l).
Qed.

Lemma counts_add_swap a b c :
  counts_add a (counts_add b c) = counts_add b (counts_add a c).
Proof. unfold counts_add; simpl. f_equal; lia. Qed.

(** When no entry raises, the order of the entries of the tee sheet does
    not matter for the counters. *)
Lemma analyze_pass_permutation xs ys :
  Permutation xs ys ->
  forall a, analyze_pass (VList xs) = Ok a -> analyze_pass (VList ys) = Ok a.
Proof.
  induction 1 as [| x l l' Hperm IH | x y l | l l' l'' H1 IH1 H2 IH2]; intros a.
  - auto.
  - rewrite (analyze_pass_cons x l), (analyze_pass_cons x l').
    destruct (analyze_pass (VList [x])) as [ax|e]; simpl; [|discriminate].
    destruct (analyze_pass (VList l)) as [al|e] eqn:El; simpl; [|discriminate].
    rewrite (IH al eq_refl). simpl. auto.
  - rewrite (analyze_pass_cons y (x :: l)), (analyze_pass_cons x l).
    rewrite (analyze_pass_cons x (y :: l)), (analyze_pass_cons y l).
    destruct (analyze_pass (VList [x])) as [ax|e1],
             (analyze_pass (VList [y])) as [ay|e2]; simpl; try discriminate.
    destruct (analyze_pass (VList l)) as [al|e]; simpl; [|discriminate].
    rewrite counts_add_swap. auto.
  - intros H. apply IH2, IH1, H.
Qed.

(** X9: The verdict on a tee sheet whose entries do not raise is that on any
    reordering of its entries. *)
Theorem verdict_ignores_order xs ys a :
  Permutation xs ys ->
  analyze_pass (VList xs) = Ok a ->
  analyze_round_scoring (VList ys) = analyze_round_scoring (VList xs).
Proof.
  intros Hperm Hpass.
  pose proof (analyze_pass_permutation xs ys Hperm a Hpass) as Hpass'.
  unfold analyze_round_scoring. rewrite Hpass, Hpass'.
  destruct xs as [|x xs].
  - apply Permutation_nil in Hperm. subst ys. reflexivity.
  - destruct ys as [|y ys]; [|reflexivity].
    apply Permutation_sym, Permutation_nil in Hperm. discriminate.
Qed.

Lemma verdict_ignores_order_witness :
  analyze_round_scoring
    (VList [VDict [("players", VList [player_of "B" (nine_none ++ back_scores)])];
            VDict [("players", VList [player_of "A" (front_scores ++ nine_none)])]])
  = analyze_round_scoring
      (VList [VDict [("players", VList [player_of "A" (front_scores ++ nine_none)])];
              VDict [("players", VList [player_of "B" (nine_none ++ back_scores)])]]).
Proof.
  apply (verdict_ignores_order _ _ (A.Locals 1 1 2)).
  - apply perm_swap.
  - reflexivity.
Defined.

(** ** Entries that are skipped, wrapped or broken *)

(** X10: An entry that is no mapping changes neither result, as long as it is
    not the only entry. *)
Theorem non_mapping_entry_is_skipped xs item ys :
  is_dict item = false ->
  (xs ++ ys)%list <> [] ->
  analyze_round_scoring (VList (xs ++ item :: ys))
  = analyze_round_scoring (VList (xs ++ ys))
  /\ get_detailed_analysis (VList (xs ++ item :: ys))
     = get_detailed_analysis (VList (xs ++ ys)).
Proof.
  intros Hitem Hne.
  assert (Ha : analyze_pass (VList (xs ++ item :: ys))
               = analyze_pass (VList (xs ++ ys))).
  { unfold analyze_pass. simpl. rewrite !for_each_app. simpl.
    unfold analyze_item at 2. rewrite Hitem. reflexivity. }
  assert (Hd : detail_pass (VList (xs ++ item :: ys))
               = detail_pass (VList (xs ++ ys))).
  { unfold detail_pass. simpl. rewrite !for_each_app. simpl.
    unfold detail_item at 2. rewrite Hitem. reflexivity. }
  assert (Ht : truthy (VList (xs ++ item :: ys)) = truthy (VList (xs ++ ys))).
  { simpl. destruct (xs ++ ys)%list as [|z zs] eqn:E; [contradiction|].
    destruct xs; reflexivity. }
  assert (Hfirst : analyze_round_scoring (VList (xs ++ item :: ys))
                   = analyze_round_scoring (VList (xs ++ ys))).
  { unfold analyze_round_scoring. rewrite Ha, Ht. reflexivity. }
  split; [exact Hfirst|].
  unfold get_detailed_analysis. rewrite Hd, Ht, Hfirst. reflexivity.
Qed.

Lemma non_mapping_entry_is_skipped_witness :
  analyze_round_scoring
    (VList [VDict [("players", VList [player_of "A" (front_scores ++ nine_none)])];
            VStr "note"])
  = Ok (false, "Only front 9 scores found (1/1 players)").
Proof.
  refine (eq_trans (proj1 (non_mapping_entry_is_skipped
             [VDict [("players", VList [player_of "A" (front_scores ++ nine_none)])]]
             (VStr "note") [] eq_refl _)) _).
  - discriminate.
  - reflexivity.
Defined.

Lemma analyze_item_wrapped g c :
  plain_group g -> analyze_item (wrap_group g) c = analyze_item g c.
Proof.
  intros [d [-> Hd]]. unfold analyze_item, wrap_group. simpl. rewrite Hd.
  reflexivity.
Qed.

Lemma detail_item_wrapped g c :
  plain_group g -> detail_item (wrap_group g) c = detail_item g c.
Proof.
  intros [d [-> Hd]]. unfold detail_item, wrap_group. simpl. rewrite Hd.
  reflexivity.
Qed.

(** X11: A sheet whose pairing groups each come in a [pairing_group] wrapper
    gets the results of the sheet of the bare groups. *)
Theorem wrapped_groups_same_results groups :
  Forall plain_group groups ->
  analyze_round_scoring (VList (map wrap_group groups))
  = analyze_round_scoring (VList groups)
  /\ get_detailed_analysis (VList (map wrap_group groups))
     = get_detailed_analysis (VList groups).
Proof.
  intros Hall. rewrite Forall_forall in Hall.
  assert (Ha : analyze_pass (VList (map wrap_group groups))
               = analyze_pass (VList groups)).
  { unfold analyze_pass. simpl. rewrite for_each_map.
    apply for_each_ext. intros x s0 Hx. apply analyze_item_wrapped, Hall, Hx. }
  assert (Hd : detail_pass (VList (map wrap_group groups))
               = detail_pass (VList groups)).
  { unfold detail_pass. simpl. rewrite for_each_map.
    apply for_each_ext. intros x s0 Hx. apply detail_item_wrapped, Hall, Hx. }
  assert (Ht : truthy (VList (map wrap_group groups)) = truthy (VList groups)).
  { destruct groups; reflexivity. }
  assert (Hfirst : analyze_round_scoring (VList (map wrap_group groups))
                   = analyze_round_scoring (VList groups)).
  { unfold analyze_round_scoring. rewrite Ha, Ht. reflexivity. }
  split; [exact Hfirst|].
  unfold get_detailed_analysis. rewrite Hd, Ht, Hfirst. reflexivity.
Qed.

Lemma wrapped_groups_same_results_witness :
  analyze_round_scoring
    (VList [wrap_group
              (VDict [("players", VList [player_of "A" (front_scores ++ back_scores)])])])
  = Ok (true, "Complete scoring detected: F9=1, B9=1 players").
Proof.
  refine (eq_trans (proj1 (wrapped_groups_same_results
            [VDict [("players", VList [player_of "A" (front_scores ++ back_scores)])]]
            _)) _).
  - constructor; [|constructor]. eexists; split; reflexivity.
  - reflexivity.
Defined.

(** X12: One wrapper around [None], a truth value or a number is enough for the
    whole round to come out flagged with an error reason, whatever the
    other entries hold. *)
Theorem broken_group_flags_round xs g ys :
  is_scalar g = true ->
  exists msg,
    analyze_round_scoring (VList (xs ++ wrap_group g :: ys))
    = Ok (true, "Error analyzing scores: " ++ msg).
Proof.
  intros Hg. unfold analyze_round_scoring.
  assert (Ht : truthy (VList (xs ++ wrap_group g :: ys)) = true)
    by (destruct xs; reflexivity).
  rewrite Ht. simpl negb. cbv iota.
  unfold analyze_pass. simpl py_iter. simpl bind. rewrite for_each_app.
  destruct (for_each analyze_item xs analyze_init) as [a|e]; simpl bind.
  - simpl for_each. unfold analyze_item at 1, wrap_group. simpl.
    rewrite (extract_players_scalar_raises g Hg). simpl. eexists; reflexivity.
  - eexists; reflexivity.
Qed.

Lemma broken_group_flags_round_witness :
  exists msg,
    analyze_round_scoring
      (VList [VDict [("players", VList [player_of "A" (front_scores ++ nine_none)])];
              wrap_group VNone])
    = Ok (true, "Error analyzing scores: " ++ msg).
Proof.
  exact (broken_group_flags_round
           [VDict [("players", VList [player_of "A" (front_scores ++ nine_none)])]]
           VNone [] eq_refl).
Defined.

(** ** The counts of the detailed record *)

Lemma detail_player_ok player c c' :
  detail_ok c -> detail_player player c = Ok c' -> detail_ok c'.
Proof.
  unfold detail_ok, detail_player. intros Hc.
  destruct (is_dict player); simpl; [|intros [= <-]; exact Hc].
  destruct (_extract_scores player) as [scores|e]; simpl; [|discriminate].
  destruct (18 <=? len scores); [|intros [= <-]; simpl; lia].
  destruct (_has_valid_scores (slice scores 0 9)) as [hf|e]; simpl; [|discriminate].
  destruct (_has_valid_scores (slice scores 9 18)) as [hb|e]; simpl; [|discriminate].
  intros [= <-]. destruct hf, hb; simpl; lia.
Qed.

Lemma detail_item_ok item c c' :
  detail_ok c -> detail_item item c = Ok c' -> detail_ok c'.
Proof.
  unfold detail_item. intros Hc.
  destruct (is_dict item); simpl; [|intros [= <-]; exact Hc].
  destruct (py_in "pairing_group" item) as [w|e]; simpl; [|discriminate].
  destruct (if w then py_getitem item "pairing_group" else Ok item) as [pg|e];
    simpl; [|discriminate].
  destruct (_extract_players pg) as [players|e]; simpl; [|discriminate].
  apply for_each_invariant; [|exact Hc].
  intros x s0 s'. apply detail_player_ok.
Qed.

Lemma detail_pass_ok data c :
  detail_pass data = Ok c -> detail_ok c.
Proof.
  unfold detail_pass.
  destruct (py_iter data) as [items|e]; simpl; [|discriminate].
  apply for_each_invariant.
  - intros x s0 s'. apply detail_item_ok.
  - unfold detail_ok, detail_init; simpl; lia.
Qed.

(** X13: In every record [get_detailed_analysis] returns, the complete players
    are among the front-9 players and among the back-9 players, a player is
    counted at most once by front-9 and back-9 together beyond the complete
    ones, and the incomplete count lies between zero and the total. *)
Theorem detailed_counts_are_consistent data r :
  get_detailed_analysis data = Ok r ->
  0 <= complete_players r
  /\ complete_players r <= front_9_players r <= total_players r
  /\ complete_players r <= back_9_players r <= total_players r
  /\ front_9_players r + back_9_players r - complete_players r <= total_players r
  /\ 0 <= incomplete_players r <= total_players r.
Proof.
  unfold get_detailed_analysis.
  destruct (truthy data); simpl; [|intros [= <-]; simpl; lia].
  destruct (detail_pass data) as [c|e] eqn:P; [|intros [= <-]; simpl; lia].
  destruct (analyze_round_scoring_total data) as [[f reason] ->]. simpl.
  intros [= <-]. simpl.
  pose proof (detail_pass_ok data c P) as H. unfold detail_ok in H. lia.
Qed.

Lemma detailed_counts_are_consistent_witness :
  0 <= 1 /\ 1 <= 2 <= 2 /\ 1 <= 1 <= 2 /\ 2 + 1 - 1 <= 2 /\ 0 <= 1 <= 2.
Proof.
  exact (detailed_counts_are_consistent two_player_sheet
           (Analysis 2 2 1 1 1 true "Complete scoring detected: F9=2, B9=1 players")
           eq_refl).
Defined.

Lemma player_same_counts player a d :
  same_counts a d ->
  related_outcome same_counts (analyze_player player a) (detail_player player d).
Proof.
  unfold same_counts, analyze_player, detail_player. intros (Ht & Hf & Hb).
  destruct (is_dict player); simpl; [|auto].
  destruct (_extract_scores player) as [scores|e]; simpl; [|reflexivity].
  destruct (18 <=? len scores); simpl; [|lia].
  destruct (_has_valid_scores (slice scores 0 9)) as [hf|e]; simpl; [|reflexivity].
  destruct (_has_valid_scores (slice scores 9 18)) as [hb|e]; simpl; [|reflexivity].
  destruct hf, hb; simpl; lia.
Qed.

Lemma item_same_counts item a d :
  same_counts a d ->
  related_outcome same_counts (analyze_item item a) (detail_item item d).
Proof.
  unfold analyze_item, detail_item. intros H.
  destruct (is_dict item); simpl; [|exact H].
  destruct (py_in "pairing_group" item) as [w|e]; simpl; [|reflexivity].
  destruct (if w then py_getitem item "pairing_group" else Ok item) as [pg|e];
    simpl; [|reflexivity].
  destruct (_extract_players pg) as [players|e]; simpl; [|reflexivity].
  apply for_each_related; [|exact H].
  intros x a' d'. apply player_same_counts.
Qed.

Lemma pass_same_counts data :
  related_outcome same_counts (analyze_pass data) (detail_pass data).
Proof.
  unfold analyze_pass, detail_pass.
  destruct (py_iter data) as [items|e]; simpl; [|reflexivity].
  apply for_each_related.
  - intros x a d. apply item_same_counts.
  - unfold same_counts; simpl; auto.
Qed.

(** X14: A record with players in it is flagged exactly when both its
    [front_9_players] and its [back_9_players] are above zero, and then the
    reason quotes these two counts. *)
Theorem detailed_flag_follows_counts data r :
  get_detailed_analysis data = Ok r ->
  total_players r <> 0 ->
  is_flagged r = (0 <? front_9_players r) && (0 <? back_9_players r)
  /\ (is_flagged r = true ->
      flag_reason r
      = "Complete scoring detected: F9=" ++ Text.of_Z (front_9_players r)
        ++ ", B9=" ++ Text.of_Z (back_9_players r) ++ " players").
Proof.
  unfold get_detailed_analysis.
  destruct (truthy data) eqn:T; simpl;
    [|intros [= <-]; simpl; intros H; contradiction].
  pose proof (pass_same_counts data) as Hrel.
  destruct (detail_pass data) as [d|e];
    [|intros [= <-]; simpl; intros H; contradiction].
  unfold analyze_round_scoring. rewrite T. simpl.
  destruct (analyze_pass data) as [a|e]; simpl in Hrel; [|contradiction].
  destruct Hrel as (Ht & Hf & Hb). simpl.
  destruct (analyze_decision a) as [flag reason] eqn:E.
  intros [= <-]. simpl. intros Hne.
  unfold analyze_decision in E. rewrite Ht, Hf, Hb in E.
  destruct (Z.eqb_spec (D.total_players d) 0); [contradiction|].
  destruct (0 <? D.front_9_players d), (0 <? D.back_9_players d);
    simpl in E; injection E as <- <-; split; try reflexivity; discriminate.
Qed.

Lemma detailed_flag_follows_counts_witness :
  true = (0 <? 2) && (0 <? 1).
Proof.
  refine (proj1 (detailed_flag_follows_counts two_player_sheet
           (Analysis 2 2 1 1 1 true "Complete scoring detected: F9=2, B9=1 players")
           eq_refl _)).
  simpl. discriminate.
Defined.

(** X15: When [analyze_round_scoring] flags a round: on empty or absent data, on
    an exception of the traversal, and on a front-9 and a back-9 counter
    both above zero; in no other case. *)
Theorem flagged_exactly_when data flag reason :
  analyze_round_scoring data = Ok (flag, reason) ->
  (flag = true <->
   truthy data = false
   \/ match analyze_pass data with
      | Raise _ => True
      | Ok c => 0 < A.total_front_9_scores c /\ 0 < A.total_back_9_scores c
      end).
Proof.
  unfold analyze_round_scoring.
  destruct (truthy data); simpl; [|intros [= <- _]; tauto].
  destruct (analyze_pass data) as [c|e] eqn:P; [|intros [= <- _]; tauto].
  pose proof (analyze_pass_counters data c P) as [Hf Hb].
  unfold analyze_decision.
  destruct (Z.eqb_spec (A.total_players c) 0).
  - intros [= <- _]. split; [discriminate|]. intros [H|H]; [discriminate | lia].
  - destruct (Z.ltb_spec 0 (A.total_front_9_scores c)),
             (Z.ltb_spec 0 (A.total_back_9_scores c)); simpl;
      intros [= <- _]; split; try discriminate; auto;
      intros [Hx|Hx]; try discriminate; lia.
Qed.

Lemma flagged_exactly_when_witness :
  false = true <-> truthy front_only_sheet = false \/ (0 < 1 /\ 0 < 0).
Proof.
  exact (flagged_exactly_when front_only_sheet false
           "Only front 9 scores found (1/1 players)" eq_refl).
Defined.

(** ** The tee sheet made of a response *)

Lemma tee_sheet_loop_app keys1 keys2 d :
  (forall k, In k keys1 -> holds_list d k = false) ->
  tee_sheet_loop (keys1 ++ keys2) d = tee_sheet_loop keys2 d.
Proof.
  induction keys1 as [|key keys IH]; intros H; simpl; [reflexivity|].
  pose proof (H key (or_introl eq_refl)) as Hk.
  unfold holds_list in Hk. unfold dict_has.
  assert (IH' : tee_sheet_loop (keys ++ keys2) d = tee_sheet_loop keys2 d).
  { apply IH. intros k Hin. apply H. right; exact Hin. }
  destruct (dict_get d key) as [x|]; [|exact IH'].
  destruct x; try exact IH'. discriminate.
Qed.

Lemma tee_sheet_loop_none keys d :
  (forall k, In k keys -> holds_list d k = false) ->
  tee_sheet_loop keys d = None.
Proof.
  intros H. rewrite <- (app_nil_r keys).
  rewrite (tee_sheet_loop_app keys [] d H). reflexivity.
Qed.

(** X16: A response that is empty, or neither a list nor a mapping, gives the
    empty tee sheet, and the round is flagged for having no data. *)
Theorem empty_response_is_flagged response :
  truthy response = false \/ (is_list response = false /\ is_dict response = false) ->
  shape_tee_sheet response = VList []
  /\ analyze_round_scoring (shape_tee_sheet response)
     = Ok (true, "No tee sheet data available").
Proof.
  intros H.
  assert (E : shape_tee_sheet response = VList []).
  { destruct response as [| b | n | f | s0 | l | d]; try reflexivity.
    - destruct H as [H | [H _]]; [|discriminate].
      destruct l; [reflexivity | discriminate].
    - destruct H as [H | [_ H]]; [|discriminate].
      destruct d; [reflexivity | discriminate]. }
  rewrite E. split; reflexivity.
Qed.

Lemma empty_response_is_flagged_witness :
  analyze_round_scoring (shape_tee_sheet (VStr "Not Found"))
  = Ok (true, "No tee sheet data available").
Proof.
  apply (proj2 (empty_response_is_flagged (VStr "Not Found")
                  (or_intror (conj eq_refl eq_refl)))).
Defined.

(** X17: A mapping response with a list under [tee_sheet], [pairing_groups],
    [data] or [groups]: the tee sheet is the list under the first of these
    keys that holds a list. *)
Theorem tee_sheet_under_first_list_key d before key after l :
  tee_sheet_keys = (before ++ key :: after)%list ->
  (forall k, In k before -> holds_list d k = false) ->
  dict_get d key = Some (VList l) ->
  shape_tee_sheet (VDict d) = VList l.
Proof.
  intros Hkeys Hbefore Hget. unfold shape_tee_sheet. rewrite Hkeys.
  rewrite (tee_sheet_loop_app before (key :: after) d Hbefore).
  simpl. unfold dict_has. rewrite Hget. reflexivity.
Qed.

Lemma tee_sheet_under_first_list_key_witness :
  shape_tee_sheet (VDict [("data", VStr "v2"); ("groups", VList [VNone])])
  = VList [VNone].
Proof.
  apply (tee_sheet_under_first_list_key _ ["tee_sheet"; "pairing_groups"; "data"]
           "groups" []); [reflexivity | | reflexivity].
  intros k Hk. simpl in Hk.
  repeat (destruct Hk as [<- | Hk]; [reflexivity|]). contradiction.
Defined.

(** X18: A non-empty mapping response with no list under any of the four keys
    is taken for a single pairing group. *)
Theorem bare_mapping_is_one_group d :
  d <> [] ->
  (forall k, In k tee_sheet_keys -> holds_list d k = false) ->
  shape_tee_sheet (VDict d) = VList [VDict d]
  /\ analyze_pass (shape_tee_sheet (VDict d)) = analyze_item (VDict d) analyze_init.
Proof.
  intros Hne H.
  assert (E : shape_tee_sheet (VDict d) = VList [VDict d]).
  { unfold shape_tee_sheet. rewrite (tee_sheet_loop_none _ d H).
    destruct d; [contradiction | reflexivity]. }
  rewrite E. split; [reflexivity|].
  unfold analyze_pass. simpl.
  destruct (analyze_item (VDict d) analyze_init); reflexivity.
Qed.

Lemma bare_mapping_is_one_group_witness :
  shape_tee_sheet (VDict [("players", VList [])])
  = VList [VDict [("players", VList [])]].
Proof.
  refine (proj1 (bare_mapping_is_one_group [("players", VList [])] _ _)).
  - discriminate.
  - intros k Hk. simpl in Hk.
    repeat (destruct Hk as [<- | Hk]; [reflexivity|]). contradiction.
Defined.

(** ** The scoring step of the application *)

(** X19: For a round whose tee sheet was fetched, the [except] branch of the
    loop is not taken: the round is flagged with the reason of
    [analyze_round_scoring] when that flags the sheet, and left as it is
    otherwise. *)
Theorem fetched_round_follows_analyzer {datetime}
        (round_obj : Round.t datetime) response :
  exists flag reason,
    analyze_round_scoring (shape_tee_sheet response) = Ok (flag, reason)
    /\ analyze_scoring_step round_obj (inr response)
       = (if flag then Round.flag round_obj reason else round_obj, flag).
Proof.
  unfold analyze_scoring_step. simpl.
  destruct (analyze_round_scoring_total (shape_tee_sheet response))
    as [[flag reason] E].
  exists flag, reason. rewrite E. split; [reflexivity|].
  destruct flag; reflexivity.
Qed.

(** X20: A round whose tee sheet request failed is flagged and reported, with
    the text of the exception in the reason. *)
Theorem failed_fetch_is_flagged {datetime}
        (work : list (Round.t datetime * (api_exn + value))) round_obj e :
  In (round_obj, inl e) work ->
  exists msg,
    In (Round.flag round_obj ("Unable to retrieve scoring data: " ++ msg))
       (snd (analyze_scoring_loop work)).
Proof.
  induction work as [|[r reply] work IH]; simpl; [contradiction|].
  intros [[= -> ->] | Hin].
  - unfold analyze_scoring_step. simpl.
    destruct (analyze_scoring_loop work) as [rounds' flagged].
    destruct e; simpl; eexists; left; reflexivity.
  - destruct (IH Hin) as [msg Hmsg]. exists msg.
    destruct (analyze_scoring_step r reply) as [r' appended].
    destruct (analyze_scoring_loop work) as [rounds' flagged]. simpl in *.
    destruct appended; [right|]; exact Hmsg.
Qed.

Lemma failed_fetch_is_flagged_witness :
  exists msg,
    In (Round.flag (Round.Make (datetime := Z) "r1" "e1" "Round 1" None false EmptyString)
          ("Unable to retrieve scoring data: " ++ msg))
       (snd (analyze_scoring_loop
               [(Round.Make "r1" "e1" "Round 1" None false EmptyString,
                 inl (OtherError "HTTP 500: oops"))])).
Proof.
  apply (failed_fetch_is_flagged
           [(Round.Make "r1" "e1" "Round 1" None false EmptyString,
             inl (OtherError "HTTP 500: oops"))]
           _ (OtherError "HTTP 500: oops")).
  left. reflexivity.
Defined.

Lemma analyze_scoring_step_spec {datetime}
      (round_obj : Round.t datetime) reply r' appended :
  analyze_scoring_step round_obj reply = (r', appended) ->
  Round.same_round round_obj r'
  /\ (appended = true -> Round.is_flagged r' = true)
  /\ (appended = false -> r' = round_obj).
Proof.
  unfold analyze_scoring_step, Round.same_round.
  destruct (get_tee_sheet (Round.id round_obj) reply) as [e|sheet].
  - intros [= <- <-]. simpl. repeat split; auto. discriminate.
  - destruct (analyze_round_scoring sheet) as [[[|] reason]|e];
      intros [= <- <-]; simpl; repeat split; auto; discriminate.
Qed.

(** X21: With rounds that come in unflagged, the rounds returned are exactly the
    ones the loop leaves flagged, in their order; and the loop changes
    nothing of a round but its two flag fields. *)
Theorem flagged_rounds_are_the_flagged {datetime}
        (work : list (Round.t datetime * (api_exn + value))) rounds' flagged :
  _analyze_scoring true work = inr (rounds', flagged) ->
  Forall (fun w => Round.is_flagged (fst w) = false) work ->
  flagged = filter Round.is_flagged rounds'
  /\ Forall2 Round.same_round (map fst work) rounds'.
Proof.
  unfold _analyze_scoring. simpl. intros [= H].
  revert rounds' flagged H.
  induction work as [|[r reply] work IH]; simpl; intros rounds' flagged H Hall.
  - injection H as <- <-. split; [reflexivity | constructor].
  - inversion Hall as [|w ws Hr Hws]; subst. simpl in Hr.
    destruct (analyze_scoring_step r reply) as [r' appended] eqn:Es.
    destruct (analyze_scoring_loop work) as [rs fl].
    injection H as <- <-.
    destruct (IH rs fl eq_refl Hws) as [-> Hsame].
    destruct (analyze_scoring_step_spec r reply r' appended Es) as (Hs & Ht & Hf).
    split; [|constructor; assumption].
    simpl. destruct appended.
    + rewrite (Ht eq_refl). reflexivity.
    + rewrite (Hf eq_refl), Hr. reflexivity.
Qed.

Lemma flagged_rounds_are_the_flagged_witness :
  [Round.flag (Round.Make (datetime := Z) "r2" "e1" "Round 2" None false EmptyString)
     "No tee sheet data available"]
  = filter Round.is_flagged
      [Round.Make "r1" "e1" "Round 1" None false EmptyString;
       Round.flag (Round.Make "r2" "e1" "Round 2" None false EmptyString)
         "No tee sheet data available"].
Proof.
  refine (proj1 (flagged_rounds_are_the_flagged
            [(Round.Make "r1" "e1" "Round 1" None false EmptyString, inr front_only_sheet);
             (Round.Make "r2" "e1" "Round 2" None false EmptyString, inr VNone)]
            _ _ eq_refl _)).
  repeat constructor.
Defined.

(** ** Stripping *)

Lemma sapp_nil_r s : s ++ EmptyString = s.
Proof. induction s as [|c r IH]; simpl; [reflexivity | rewrite IH; reflexivity]. Qed.

Lemma sapp_assoc a b c : (a ++ b) ++ c = a ++ (b ++ c).
Proof. induction a as [|x a IH]; simpl; [reflexivity | rewrite IH; reflexivity]. Qed.

Lemma rev_onto_spec s acc : Text.rev_onto s acc = Text.rev s ++ acc.
Proof.
  unfold Text.rev. revert acc.
  induction s as [|c r IH]; intros acc; simpl; [reflexivity|].
  rewrite (IH (String c acc)), (IH (String c EmptyString)), sapp_assoc.
  reflexivity.
Qed.

Lemma rev_app a b : Text.rev (a ++ b) = Text.rev b ++ Text.rev a.
Proof.
  induction a as [|c a IH]; simpl.
  - rewrite sapp_nil_r. reflexivity.
  - unfold Text.rev at 1 3. simpl.
    rewrite !(rev_onto_spec _ (String c EmptyString)), IH, sapp_assoc.
    reflexivity.
Qed.

Lemma rev_involutive s : Text.rev (Text.rev s) = s.
Proof.
  induction s as [|c r IH]; [reflexivity|].
  unfold Text.rev at 2. simpl. rewrite rev_onto_spec, rev_app, IH. reflexivity.
Qed.

Lemma lstrip_starts p s : starts_with p (Text.lstrip_with p s) = false.
Proof.
  induction s as [|c r IH]; simpl; [reflexivity|].
  destruct (p c) eqn:E; [exact IH | simpl; exact E].
Qed.

Lemma lstrip_fixed p s : starts_with p s = false -> Text.lstrip_with p s = s.
Proof. destruct s as [|c r]; simpl; [reflexivity | intros ->; reflexivity]. Qed.

Lemma lstrip_suffix p s : exists pre, s = pre ++ Text.lstrip_with p s.
Proof.
  induction s as [|c r [pre IH]]; simpl; [exists EmptyString; reflexivity|].
  destruct (p c).
  - exists (String c pre). simpl. rewrite <- IH. reflexivity.
  - exists EmptyString. reflexivity.
Qed.

(** What is left after stripping neither starts nor ends with a stripped
    character. *)
Lemma strip_with_clean p s :
  starts_with p (Text.strip_with p s) = false
  /\ ends_with p (Text.strip_with p s) = false.
Proof.
  unfold Text.strip_with, ends_with.
  set (t := Text.lstrip_with p s).
  set (u := Text.lstrip_with p (Text.rev t)).
  split; [|rewrite rev_involutive; apply lstrip_starts].
  destruct (lstrip_suffix p (Text.rev t)) as [pre Hpre]. fold u in Hpre.
  assert (Ht : t = Text.rev u ++ Text.rev pre).
  { rewrite <- (rev_involutive t), Hpre, rev_app. reflexivity. }
  pose proof (lstrip_starts p s) as Hs. fold t in Hs. rewrite Ht in Hs.
  destruct (Text.rev u); [reflexivity | exact Hs].
Qed.

Lemma strip_with_fixed p s :
  starts_with p s = false -> ends_with p s = false -> Text.strip_with p s = s.
Proof.
  unfold ends_with, Text.strip_with. intros H1 H2.
  rewrite (lstrip_fixed p s H1), (lstrip_fixed p _ H2). apply rev_involutive.
Qed.

Lemma strip_with_idempotent p s :
  Text.strip_with p (Text.strip_with p s) = Text.strip_with p s.
Proof.
  destruct (strip_with_clean p s) as [H1 H2]. apply strip_with_fixed; assumption.
Qed.

(** ** validate_non_empty_string and the API key *)

(** X22: What [validate_non_empty_string] returns is not empty, has no white
    space at either end, and passes the validation unchanged. *)
Theorem validated_string_is_clean value field_name s :
  validate_non_empty_string value field_name = Ok s ->
  s <> EmptyString
  /\ starts_with Text.is_space s = false
  /\ ends_with Text.is_space s = false
  /\ forall field_name', validate_non_empty_string (VStr s) field_name' = Ok s.
Proof.
  unfold validate_non_empty_string.
  destruct value as [| | | | t | |]; try discriminate.
  unfold not_blank. destruct (Text.strip t) as [|c r] eqn:E; [discriminate|].
  simpl. intros [= <-].
  destruct (strip_with_clean Text.is_space t) as [H1 H2].
  unfold Text.strip in E. rewrite E in H1, H2.
  split; [discriminate|]. split; [exact H1|]. split; [exact H2|].
  intros f'. unfold Text.strip.
  rewrite (strip_with_fixed Text.is_space (String c r) H1 H2). reflexivity.
Qed.

Lemma validated_string_is_clean_witness :
  validate_non_empty_string (VStr "test") "other" = Ok "test".
Proof.
  exact (proj2 (proj2 (proj2 (validated_string_is_clean (VStr "  test  ") "field"
                                 "test" eq_refl))) "other").
Defined.

(** X23: White space around an API key does not change whether its format is
    accepted. *)
Theorem api_key_format_ignores_padding s :
  validate_api_key_format (VStr (Text.strip s)) = validate_api_key_format (VStr s).
Proof.
  unfold validate_api_key_format, Text.strip.
  rewrite strip_with_idempotent. reflexivity.
Qed.

(** X24: A key that [set_api_key] accepts is stored stripped, and [get_api_key]
    then returns it, not empty, whatever the environment holds, and leaves
    it stored. *)
Theorem set_then_get_api_key api_key stored env :
  set_api_key api_key = Ok stored ->
  get_api_key env stored = Ok (Text.strip api_key, stored)
  /\ Text.strip api_key <> EmptyString.
Proof.
  unfold set_api_key, not_blank.
  destruct (Text.is_empty api_key); simpl; [discriminate|].
  destruct (Text.strip api_key) as [|c r] eqn:E; simpl; [discriminate|].
  intros [= <-]. split; [reflexivity | discriminate].
Qed.

Lemma set_then_get_api_key_witness :
  get_api_key (Some "from-the-environment") (Some "abcdefghij")
  = Ok ("abcdefghij", Some "abcdefghij").
Proof.
  exact (proj1 (set_then_get_api_key " abcdefghij " (Some "abcdefghij")
                  (Some "from-the-environment") eq_refl)).
Defined.

(** ** sanitize_filename *)

Lemma any_char_app p a b : any_char p (a ++ b) = any_char p a || any_char p b.
Proof.
  induction a as [|c a IH]; simpl; [reflexivity|].
  rewrite IH, orb_assoc. reflexivity.
Qed.

Lemma any_char_rev p s : any_char p (Text.rev s) = any_char p s.
Proof.
  induction s as [|c r IH]; [reflexivity|].
  unfold Text.rev. simpl. rewrite rev_onto_spec, any_char_app, IH. simpl.
  rewrite orb_false_r, orb_comm. reflexivity.
Qed.

Lemma any_char_lstrip p q s :
  any_char p s = false -> any_char p (Text.lstrip_with q s) = false.
Proof.
  intros H. destruct (lstrip_suffix q s) as [pre Hpre].
  rewrite Hpre, any_char_app in H. apply orb_false_iff in H. apply H.
Qed.

Lemma any_char_strip p q s :
  any_char p s = false -> any_char p (Text.strip_with q s) = false.
Proof.
  intros H. unfold Text.strip_with.
  rewrite any_char_rev. apply any_char_lstrip.
  rewrite any_char_rev. apply any_char_lstrip. exact H.
Qed.

Lemma replace_char_map old new s :
  replace_char old new s = map_chars (fun c => if Ascii.eqb c old then new else c) s.
Proof. induction s as [|c r IH]; simpl; [reflexivity | rewrite IH; reflexivity]. Qed.

Lemma map_chars_map f g s : map_chars f (map_chars g s) = map_chars (fun c => f (g c)) s.
Proof. induction s as [|c r IH]; simpl; [reflexivity | rewrite IH; reflexivity]. Qed.

Lemma map_chars_ext f g s :
  (forall c, f c = g c) -> map_chars f s = map_chars g s.
Proof.
  intros H. induction s as [|c r IH]; simpl; [reflexivity|].
  rewrite H, IH. reflexivity.
Qed.

(** The replacements one after the other are one pass that replaces every
    character of [chars], when the underscore is not among them. *)
Lemma replace_each_map chars s :
  Text.has_char "_" chars = false ->
  replace_each chars s
  = map_chars (fun c => if Text.has_char c chars then "_"%char else c) s.
Proof.
  revert s. induction chars as [|x chars IH]; intros s H; simpl.
  - induction s as [|c r IHs]; simpl; [reflexivity | rewrite <- IHs; reflexivity].
  - simpl in H. apply orb_false_iff in H. destruct H as [Hx Hrest].
    rewrite (IH _ Hrest), replace_char_map, map_chars_map.
    apply map_chars_ext. intros c.
    rewrite (Ascii.eqb_sym c x).
    destruct (Ascii.eqb x c) eqn:E; simpl; [|reflexivity].
    rewrite Hrest. reflexivity.
Qed.

Lemma replaced_has_no_invalid s :
  any_char is_invalid_char (replace_each invalid_chars s) = false.
Proof.
  rewrite (replace_each_map invalid_chars s eq_refl).
  induction s as [|c r IH]; cbn [any_char map_chars]; [reflexivity|].
  rewrite IH, orb_false_r. unfold is_invalid_char.
  destruct (Text.has_char c invalid_chars) eqn:E; [reflexivity | exact E].
Qed.

Lemma replace_each_fixed s :
  any_char is_invalid_char s = false -> replace_each invalid_chars s = s.
Proof.
  intros H. rewrite (replace_each_map invalid_chars s eq_refl).
  induction s as [|c r IH]; cbn [any_char map_chars] in *; [reflexivity|].
  apply orb_false_iff in H. destruct H as [Hc Hr].
  unfold is_invalid_char in Hc. rewrite Hc, (IH Hr). reflexivity.
Qed.

Lemma stripped_name_facts filename :
  let t := Text.strip_with space_or_dot (replace_each invalid_chars filename) in
  any_char is_invalid_char t = false
  /\ starts_with space_or_dot t = false
  /\ ends_with space_or_dot t = false.
Proof.
  intros t. split.
  - apply any_char_strip, replaced_has_no_invalid.
  - apply strip_with_clean.
Qed.

(** X25: A sanitized file name is not empty, holds none of the nine replaced
    characters, and neither starts nor ends with a blank or a dot. *)
Theorem sanitized_filename_is_safe filename :
  sanitize_filename filename <> EmptyString
  /\ any_char is_invalid_char (sanitize_filename filename) = false
  /\ starts_with space_or_dot (sanitize_filename filename) = false
  /\ ends_with space_or_dot (sanitize_filename filename) = false.
Proof.
  unfold sanitize_filename.
  destruct (stripped_name_facts filename) as (Hinv & Hs & He).
  destruct (Text.strip_with space_or_dot (replace_each invalid_chars filename))
    as [|c r]; simpl Text.is_empty; cbv iota.
  - split; [discriminate|]. repeat split; vm_compute; reflexivity.
  - split; [discriminate|]. split; [exact Hinv|]. split; [exact Hs | exact He].
Qed.

(** X26: Sanitizing a sanitized file name changes nothing. *)
Theorem sanitize_filename_idempotent filename :
  sanitize_filename (sanitize_filename filename) = sanitize_filename filename.
Proof.
  unfold sanitize_filename at 2 3.
  destruct (stripped_name_facts filename) as (Hinv & Hs & He).
  destruct (Text.strip_with space_or_dot (replace_each invalid_chars filename))
    as [|c r]; simpl Text.is_empty; cbv iota.
  - vm_compute. reflexivity.
  - unfold sanitize_filename.
    rewrite (replace_each_fixed _ Hinv), (strip_with_fixed space_or_dot _ Hs He).
    reflexivity.
Qed.

(** ** validate_selection_index and validate_required_fields *)

Lemma no_i_no_literal s :
  Text.has_char "i" s = false -> Text.contains "invalid literal" s = false.
Proof.
  induction s as [|c r IH]; [reflexivity|].
  cbn [Text.has_char]. intros H. apply orb_false_iff in H. destruct H as [Hc Hr].
  cbn [Text.contains]. rewrite (IH Hr), orb_false_r. cbn [prefix].
  destruct (ascii_dec "i" c) as [<-|];
    [rewrite Ascii.eqb_refl in Hc; discriminate | reflexivity].
Qed.

Lemma uint_text_no_i d : Text.has_char "i" (NilEmpty.string_of_uint d) = false.
Proof. induction d; simpl; auto. Qed.

Lemma of_Z_no_i n : Text.has_char "i" (Text.of_Z n) = false.
Proof.
  unfold Text.of_Z, NilZero.string_of_int, NilZero.string_of_uint.
  destruct (Z.to_int n) as [d|d]; simpl;
    destruct d; try reflexivity; apply (uint_text_no_i (_ d)).
Qed.

Lemma range_message_kept max_index :
  Text.contains "invalid literal"
    ("Selection must be between 1 and " ++ Text.of_Z max_index) = false.
Proof.
  simpl. apply no_i_no_literal, of_Z_no_i.
Qed.

(** X27: An index that [validate_selection_index] returns is a valid 0-based
    index below [max_index]: one less than the number typed, which lay
    between 1 and [max_index]. *)
Theorem selection_index_in_bounds selection max_index i :
  validate_selection_index selection max_index = Ok i ->
  0 <= i < max_index
  /\ py_int (VStr (Text.strip selection)) = Ok (i + 1).
Proof.
  unfold validate_selection_index, selection_index_body, bind.
  destruct (py_int (VStr (Text.strip selection))) as [n|e].
  - destruct (Z.ltb_spec n 1); cbn [orb].
    + rewrite range_message_kept. discriminate.
    + destruct (Z.ltb_spec max_index n); cbv beta iota.
      * rewrite range_message_kept. discriminate.
      * intros [= <-]. split; [lia | f_equal; lia].
  - destruct e; try discriminate.
    destruct (Text.contains "invalid literal" msg); discriminate.
Qed.

Lemma selection_index_in_bounds_witness :
  0 <= 2 < 5 /\ py_int (VStr (Text.strip " 3 ")) = Ok (2 + 1).
Proof.
  exact (selection_index_in_bounds " 3 " 5 2 eq_refl).
Defined.






(** Where the digit limit is met before the text after the digits: 4301
    digits and a letter are no [invalid literal]. *)
Example long_digits_then_text :
  py_int (VStr (repeat_char "1" 4301 ++ "x"))
  = Raise (ValueError (digit_limit_message 4301))
  /\ py_int (VStr (repeat_char "1" 4301 ++ "_"))
     = Raise (ValueError ("invalid literal for int() with base 10: "
                          ++ Text.repr (repeat_char "1" 4301 ++ "_")))
  /\ py_int (VStr (repeat_char "1" 4300)) <> Raise (ValueError (digit_limit_message 4300))
  /\ exists n, py_int (VStr (String "-" (repeat_char "1" 4300))) = Ok n.
Proof.
  split; [vm_compute; reflexivity|].
  split; [vm_compute; reflexivity|].
  split; [vm_compute; discriminate|].
  eexists. vm_compute. reflexivity.
Qed.

Lemma field_missing_false data field :
  field_missing data field = false
  <-> exists v, dict_get data field = Some v /\ v <> VNone.
Proof.
  unfold field_missing, dict_has.
  destruct (dict_get data field) as [v|]; simpl.
  - destruct v; simpl; split; try discriminate; eauto;
      try (intros _; eexists; split; [reflexivity | discriminate]).
    intros [v [[= <-] H]]. contradiction.
  - split; [discriminate | intros [v [H _]]; discriminate].
Qed.

(** X29: [validate_required_fields] returns without an exception exactly when
    every required field is in the mapping with a value other than [None]. *)
Theorem required_fields_accepted_iff data required_fields :
  validate_required_fields data required_fields = Ok tt
  <-> forall field, In field required_fields ->
                    exists v, dict_get data field = Some v /\ v <> VNone.
Proof.
  unfold validate_required_fields.
  induction required_fields as [|f fields IH]; simpl.
  - split; [intros _ field [] | reflexivity].
  - destruct (field_missing data f) eqn:E.
    + split; [discriminate|]. intros H.
      pose proof (proj2 (field_missing_false data f) (H f (or_introl eq_refl))) as H'.
      rewrite H' in E. discriminate.
    + rewrite IH. split.
      * intros H field [<- | Hin]; [apply field_missing_false; exact E | auto].
      * intros H field Hin. apply H. right; exact Hin.
Qed.

Lemma required_fields_accepted_iff_witness :
  validate_required_fields [("id", VInt 7); ("name", VStr "Spring")] ["id"; "name"]
  = Ok tt.
Proof.
  apply (proj2 (required_fields_accepted_iff
                  [("id", VInt 7); ("name", VStr "Spring")] ["id"; "name"])).
  intros field Hin. simpl in Hin.
  destruct Hin as [<- | [<- | []]]; eexists; (split; [reflexivity | discriminate]).
Defined.

(** ** A player with a short score list, in the whole tee sheet *)

Lemma for_each_insert {X S} (body : X -> S -> result S) (shift : S -> S)
      p xs1 xs2 s :
  (forall x s, body x (shift s) = bind (body x s) (fun s' => Ok (shift s'))) ->
  (forall s, body p s = Ok (shift s)) ->
  for_each body (xs1 ++ p :: xs2) s
  = bind (for_each body (xs1 ++ xs2) s) (fun s' => Ok (shift s')).
Proof.
  intros Hshift Hp. rewrite !for_each_app.
  destruct (for_each body xs1 s) as [a|e]; simpl; [|reflexivity].
  rewrite Hp. simpl. apply for_each_shift. exact Hshift.
Qed.

Lemma analyze_item_players item c :
  is_dict item = true ->
  analyze_item item c
  = (players <- group_players item ;; for_each analyze_player players c).
Proof.
  intros H. unfold analyze_item, group_players. rewrite H. simpl.
  destruct (py_in "pairing_group" item) as [w|e]; simpl; [|reflexivity].
  destruct (if w then py_getitem item "pairing_group" else Ok item); reflexivity.
Qed.

Lemma detail_item_players item c :
  is_dict item = true ->
  detail_item item c
  = (players <- group_players item ;; for_each detail_player players c).
Proof.
  intros H. unfold detail_item, group_players. rewrite H. simpl.
  destruct (py_in "pairing_group" item) as [w|e]; simpl; [|reflexivity].
  destruct (if w then py_getitem item "pairing_group" else Ok item); reflexivity.
Qed.

Lemma detail_player_shift hf hb player c :
  detail_player player (detail_gain hf hb c)
  = bind (detail_player player c) (fun c' => Ok (detail_gain hf hb c')).
Proof.
  unfold detail_player.
  destruct (is_dict player); simpl; [|reflexivity].
  destruct (_extract_scores player) as [scores|e]; simpl; [|reflexivity].
  destruct (18 <=? len scores).
  - destruct (_has_valid_scores (slice scores 0 9)) as [f|e]; simpl; [|reflexivity].
    destruct (_has_valid_scores (slice scores 9 18)) as [b|e]; simpl; [|reflexivity].
    destruct f, b; unfold detail_gain; simpl; do 2 f_equal; lia.
  - simpl. unfold detail_gain; simpl. do 2 f_equal; lia.
Qed.

Lemma detail_item_shift hf hb item c :
  detail_item item (detail_gain hf hb c)
  = bind (detail_item item c) (fun c' => Ok (detail_gain hf hb c')).
Proof.
  unfold detail_item.
  destruct (is_dict item); simpl; [|reflexivity].
  destruct (py_in "pairing_group" item) as [w|e]; simpl; [|reflexivity].
  destruct (if w then py_getitem item "pairing_group" else Ok item) as [pg|e];
    simpl; [|reflexivity].
  destruct (_extract_players pg) as [players|e]; simpl; [|reflexivity].
  apply (for_each_shift detail_player (detail_gain hf hb)).
  intros x s0. apply detail_player_shift.
Qed.

Lemma analyze_player_halves pd scores hf hb c :
  _extract_scores (VDict pd) = Ok scores ->
  halves scores hf hb ->
  analyze_player (VDict pd) c = Ok (counts_add c (analyze_gain hf hb)).
Proof.
  intros E H. unfold analyze_player. simpl. rewrite E. simpl.
  destruct H as [(Hlen & -> & ->) | (Hlen & -> & ->)].
  - destruct (Z.leb_spec 18 (len scores)); [lia|].
    unfold counts_add, analyze_gain; simpl. do 2 f_equal; lia.
  - destruct (Z.leb_spec 18 (len scores)); [|lia]. simpl.
    destruct hf, hb; unfold counts_add, analyze_gain; simpl; do 2 f_equal; lia.
Qed.

Lemma detail_player_halves pd scores hf hb c :
  _extract_scores (VDict pd) = Ok scores ->
  halves scores hf hb ->
  detail_player (VDict pd) c = Ok (detail_gain hf hb c).
Proof.
  intros E H. unfold detail_player. simpl. rewrite E. simpl.
  destruct H as [(Hlen & -> & ->) | (Hlen & -> & ->)].
  - destruct (Z.leb_spec 18 (len scores)); [lia|].
    unfold detail_gain; simpl. do 2 f_equal; lia.
  - destruct (Z.leb_spec 18 (len scores)); [|lia]. simpl.
    destruct hf, hb; unfold detail_gain; simpl; do 2 f_equal; lia.
Qed.

Lemma firstn_length_app {A} (l r : list A) : firstn (List.length l) (l ++ r) = l.
Proof. induction l as [|x l IH]; simpl; [reflexivity | rewrite IH; reflexivity]. Qed.

Lemma skipn_length_app {A} (l r : list A) : skipn (List.length l) (l ++ r) = r.
Proof. induction l as [|x l IH]; simpl; [reflexivity | exact IH]. Qed.

(** A score list that starts with nine scores [front] and nine scores
    [back]: these are the two slices, whatever follows. *)
Lemma halves_of_split front back rest hf hb :
  List.length front = 9%nat ->
  List.length back = 9%nat ->
  _has_valid_scores front = Ok hf ->
  _has_valid_scores back = Ok hb ->
  halves (front ++ back ++ rest) hf hb.
Proof.
  intros Lf Lb Hf Hb. right.
  assert (S1 : slice (front ++ back ++ rest) 0 9 = front).
  { unfold slice. simpl skipn. change (9 - 0)%nat with 9%nat.
    rewrite <- Lf. apply firstn_length_app. }
  assert (S2 : slice (front ++ back ++ rest) 9 18 = back).
  { assert (K : skipn 9 (front ++ back ++ rest) = (back ++ rest)%list)
      by (rewrite <- Lf; apply skipn_length_app).
    unfold slice. change (18 - 9)%nat with 9%nat. rewrite K.
    rewrite <- Lb. apply firstn_length_app. }
  rewrite S1, S2. repeat split; try assumption.
  unfold len. rewrite !length_app, Lf, Lb. lia.
Qed.

(** The sheet-level step: the entry [item] has the players of [item'] and
    one player more, who has the halves [hf], [hb]. *)
Lemma one_player_more before item item' after ps1 pd ps2 scores hf hb :
  is_dict item = true ->
  group_players item = Ok (ps1 ++ VDict pd :: ps2)%list ->
  is_dict item' = true ->
  group_players item' = Ok (ps1 ++ ps2)%list ->
  _extract_scores (VDict pd) = Ok scores ->
  halves scores hf hb ->
  counted_as (VList (before ++ item :: after)) (VList (before ++ item' :: after))
             hf hb.
Proof.
  intros Hd Hg Hd' Hg' E H.
  assert (Ha : analyze_pass (VList (before ++ item :: after))
               = (c <- analyze_pass (VList (before ++ item' :: after)) ;;
                  Ok (counts_add c (analyze_gain hf hb)))).
  { unfold analyze_pass. cbn [py_iter bind]. rewrite !for_each_app.
    destruct (for_each analyze_item before analyze_init) as [a|e];
      cbn [bind]; [|reflexivity].
    cbn [for_each]. rewrite !analyze_item_players, Hg, Hg' by assumption.
    cbn [bind].
    rewrite (for_each_insert analyze_player
               (fun c => counts_add c (analyze_gain hf hb)) (VDict pd) ps1 ps2 a
               (fun x s0 => analyze_player_shift (analyze_gain hf hb) x s0)
               (fun s0 => analyze_player_halves pd scores hf hb s0 E H)).
    destruct (for_each analyze_player (ps1 ++ ps2)%list a) as [a'|e];
      cbn [bind]; [|reflexivity].
    apply (for_each_shift analyze_item
             (fun c => counts_add c (analyze_gain hf hb))
             (fun x s0 => analyze_item_shift (analyze_gain hf hb) x s0)). }
  assert (Hdp : detail_pass (VList (before ++ item :: after))
                = (c <- detail_pass (VList (before ++ item' :: after)) ;;
                   Ok (detail_gain hf hb c))).
  { unfold detail_pass. cbn [py_iter bind]. rewrite !for_each_app.
    destruct (for_each detail_item before detail_init) as [a|e];
      cbn [bind]; [|reflexivity].
    cbn [for_each]. rewrite !detail_item_players, Hg, Hg' by assumption.
    cbn [bind].
    rewrite (for_each_insert detail_player (detail_gain hf hb) (VDict pd) ps1 ps2 a
               (fun x s0 => detail_player_shift hf hb x s0)
               (fun s0 => detail_player_halves pd scores hf hb s0 E H)).
    destruct (for_each detail_player (ps1 ++ ps2)%list a) as [a'|e];
      cbn [bind]; [|reflexivity].
    apply (for_each_shift detail_item (detail_gain hf hb)
             (fun x s0 => detail_item_shift hf hb x s0)). }
  assert (Ht : truthy (VList (before ++ item :: after)) = true)
    by (destruct before; reflexivity).
  assert (Hv : forall c, analyze_pass (VList (before ++ item' :: after)) = Ok c ->
               analyze_round_scoring (VList (before ++ item :: after))
               = Ok (analyze_decision (counts_add c (analyze_gain hf hb)))).
  { intros c Hc. unfold analyze_round_scoring. rewrite Ht, Ha, Hc. reflexivity. }
  unfold counted_as. split; [exact Ha|]. split; [exact Hdp|]. split; [exact Hv|].
  intros c Hc.
  pose proof (pass_same_outcome (VList (before ++ item' :: after))) as Hsame.
  rewrite Hc in Hsame.
  destruct (analyze_pass (VList (before ++ item' :: after))) as [a|e] eqn:Ea;
    simpl in Hsame; [|contradiction].
  unfold get_detailed_analysis. rewrite Ht, Hdp, Hc. cbn [negb bind].
  rewrite (Hv a eq_refl). cbn [bind].
  destruct (analyze_decision (counts_add a (analyze_gain hf hb))) as [flag reason].
  eexists. split; [reflexivity|]. simpl. repeat split.
Qed.

(** Two entries that differ in one player only, on whom the loop bodies
    agree, give the same results. *)
Lemma same_player_same_results before item1 item2 after ps1 pd1 pd2 ps2 :
  is_dict item1 = true ->
  group_players item1 = Ok (ps1 ++ VDict pd1 :: ps2)%list ->
  is_dict item2 = true ->
  group_players item2 = Ok (ps1 ++ VDict pd2 :: ps2)%list ->
  (forall c, analyze_player (VDict pd1) c = analyze_player (VDict pd2) c) ->
  (forall c, detail_player (VDict pd1) c = detail_player (VDict pd2) c) ->
  analyze_round_scoring (VList (before ++ item1 :: after))
  = analyze_round_scoring (VList (before ++ item2 :: after))
  /\ get_detailed_analysis (VList (before ++ item1 :: after))
     = get_detailed_analysis (VList (before ++ item2 :: after)).
Proof.
  intros Hd1 Hg1 Hd2 Hg2 Ha Hdt.
  assert (Hpa : analyze_pass (VList (before ++ item1 :: after))
                = analyze_pass (VList (before ++ item2 :: after))).
  { unfold analyze_pass. cbn [py_iter bind]. rewrite !for_each_app.
    destruct (for_each analyze_item before analyze_init) as [a|e];
      cbn [bind]; [|reflexivity].
    cbn [for_each]. rewrite !analyze_item_players, Hg1, Hg2 by assumption.
    cbn [bind]. rewrite !for_each_app.
    destruct (for_each analyze_player ps1 a) as [a'|e]; cbn [bind]; [|reflexivity].
    cbn [for_each]. rewrite Ha. reflexivity. }
  assert (Hpd : detail_pass (VList (before ++ item1 :: after))
                = detail_pass (VList (before ++ item2 :: after))).
  { unfold detail_pass. cbn [py_iter bind]. rewrite !for_each_app.
    destruct (for_each detail_item before detail_init) as [a|e];
      cbn [bind]; [|reflexivity].
    cbn [for_each]. rewrite !detail_item_players, Hg1, Hg2 by assumption.
    cbn [bind]. rewrite !for_each_app.
    destruct (for_each detail_player ps1 a) as [a'|e]; cbn [bind]; [|reflexivity].
    cbn [for_each]. rewrite Hdt. reflexivity. }
  assert (Ht : truthy (VList (before ++ item1 :: after))
               = truthy (VList (before ++ item2 :: after)))
    by (destruct before; reflexivity).
  assert (Hv : analyze_round_scoring (VList (before ++ item1 :: after))
               = analyze_round_scoring (VList (before ++ item2 :: after))).
  { unfold analyze_round_scoring. rewrite Hpa, Ht. reflexivity. }
  split; [exact Hv|].
  unfold get_detailed_analysis. rewrite Hpd, Ht, Hv. reflexivity.
Qed.

(** C7: a player record whose score list has fewer than 18 elements is
    counted in the total of players by [analyze_round_scoring] and by
    [get_detailed_analysis], and in neither half: the tee sheet with this
    player has the counters of the tee sheet without, and one more player.
    With 18 elements or more, the elements at indices 0 to 8 are the front
    nine and those at indices 9 to 17 the back nine: the player is counted
    for a half when the predicate holds of these nine; and two score lists
    that agree on indices 0 to 17 give the same results of both entry
    points, also when the predicate raises. *)
Theorem short_list_player_counts_in_no_half
        before item item' after ps1 pd ps2 scores :
  is_dict item = true ->
  group_players item = Ok (ps1 ++ VDict pd :: ps2)%list ->
  is_dict item' = true ->
  group_players item' = Ok (ps1 ++ ps2)%list ->
  _extract_scores (VDict pd) = Ok scores ->
  (len scores < 18 ->
   counted_as (VList (before ++ item :: after))
              (VList (before ++ item' :: after)) false false)
  /\ (forall front back rest has_front has_back,
        scores = (front ++ back ++ rest)%list ->
        List.length front = 9%nat ->
        List.length back = 9%nat ->
        _has_valid_scores front = Ok has_front ->
        _has_valid_scores back = Ok has_back ->
        counted_as (VList (before ++ item :: after))
                   (VList (before ++ item' :: after)) has_front has_back)
  /\ (18 <= len scores ->
      forall item2 pd2 scores2,
        is_dict item2 = true ->
        group_players item2 = Ok (ps1 ++ VDict pd2 :: ps2)%list ->
        _extract_scores (VDict pd2) = Ok scores2 ->
        18 <= len scores2 ->
        (forall i, (i < 18)%nat -> nth_error scores2 i = nth_error scores i) ->
        analyze_round_scoring (VList (before ++ item2 :: after))
        = analyze_round_scoring (VList (before ++ item :: after))
        /\ get_detailed_analysis (VList (before ++ item2 :: after))
           = get_detailed_analysis (VList (before ++ item :: after))).
Proof.
  intros Hd Hg Hd' Hg' E. split; [|split].
  - intros Hlen.
    apply (one_player_more before item item' after ps1 pd ps2 scores);
      try assumption.
    left. auto.
  - intros front back rest hf hb -> Lf Lb Hf Hb.
    apply (one_player_more before item item' after ps1 pd ps2
             (front ++ back ++ rest)); try assumption.
    apply halves_of_split; assumption.
  - intros Hlen item2 pd2 scores2 Hd2 Hg2 E2 Hlen2 Hsame.
    apply (same_player_same_results before item2 item after ps1 pd2 pd ps2);
      try assumption.
    + intros c.
      exact (proj1 (proj2 (player_step_by_length pd scores c detail_init E) Hlen
                      pd2 scores2 E2 Hlen2 Hsame)).
    + intros c.
      exact (proj2 (proj2 (player_step_by_length pd scores analyze_init c E) Hlen
                      pd2 scores2 E2 Hlen2 Hsame)).
Qed.

Lemma short_list_player_counts_in_no_half_witness :
  analyze_round_scoring (sheet_of [player_of "P" (ints [4; 5; 3; 4; 5])])
  = Ok (false, "No scores found on either front or back 9")
  /\ (exists r,
        get_detailed_analysis (sheet_of [player_of "P" (ints [4; 5; 3; 4; 5])]) = Ok r
        /\ total_players r = 0 + 1
        /\ front_9_players r = 0 + 0
        /\ back_9_players r = 0 + 0
        /\ complete_players r = 0 + 0)
  /\ analyze_round_scoring
       (sheet_of [player_of "Q" (front_scores ++ nine_none ++ ints [9; 9])])
     = Ok (false, "Only front 9 scores found (1/1 players)").
Proof.
  split; [|split].
  - destruct (short_list_player_counts_in_no_half
                [] (VDict [("players", VList [player_of "P" (ints [4; 5; 3; 4; 5])])])
                (VDict [("players", VList [])]) [] []
                [("name", VStr "P"); ("scores", VList (ints [4; 5; 3; 4; 5]))] []
                (ints [4; 5; 3; 4; 5]) eq_refl eq_refl eq_refl eq_refl eq_refl)
      as [Hshort _].
    assert (Hlen : len (ints [4; 5; 3; 4; 5]) < 18) by reflexivity.
    destruct (Hshort Hlen) as (_ & _ & Hv & _).
    exact (Hv analyze_init eq_refl).
  - destruct (short_list_player_counts_in_no_half
                [] (VDict [("players", VList [player_of "P" (ints [4; 5; 3; 4; 5])])])
                (VDict [("players", VList [])]) [] []
                [("name", VStr "P"); ("scores", VList (ints [4; 5; 3; 4; 5]))] []
                (ints [4; 5; 3; 4; 5]) eq_refl eq_refl eq_refl eq_refl eq_refl)
      as [Hshort _].
    assert (Hlen : len (ints [4; 5; 3; 4; 5]) < 18) by reflexivity.
    destruct (Hshort Hlen) as (_ & _ & _ & Hr).
    exact (Hr detail_init eq_refl).
  - destruct (short_list_player_counts_in_no_half
                [] (VDict [("players",
                            VList [player_of "Q" (front_scores ++ nine_none ++ ints [9; 9])])])
                (VDict [("players", VList [])]) [] []
                [("name", VStr "Q");
                 ("scores", VList (front_scores ++ nine_none ++ ints [9; 9]))] []
                (front_scores ++ nine_none ++ ints [9; 9])%list
                eq_refl eq_refl eq_refl eq_refl eq_refl)
      as [_ [Hlong _]].
    destruct (Hlong front_scores nine_none (ints [9; 9]) true false
                eq_refl eq_refl eq_refl eq_refl eq_refl) as (_ & _ & Hv & _).
    exact (Hv analyze_init eq_refl).
Defined.
